(** * aws-rag-s3-vectors: the query pipeline and the vector index gateway

    A shallow embedding of [src/s3_vector_client.py], [src/rag_service.py],
    the request model and handlers of [src/app.py], [src/ingest_service.py]
    and the report of [scripts/ingest.py].

    - Python [float] is IEEE binary64: Rocq's primitive [float], whose
      operations are specified against [SpecFloat] by [FloatAxioms].
    - Python [int] is [Z]; [str] is [string]; [Optional[T]] is [option T].
    - The remote services (Bedrock, S3 Vectors), the wall clock and
      [time.sleep] are effects.  A run threads a chronological [trace] of
      the effects performed so far; what a service answers, and what the
      clock shows, is a function of that trace (record [Env]).
    - Exceptions are values of [exn]; a computation returns [Ret] or [Raise].
    - What the model sends under ["embedding"] is kept as the decoded JSON
      value until [np.array(..., dtype=np.float32)] reads it; how numpy
      reads a value is numpy's doing and a field of [Env].
    - The constraints of the request model are [App.valid]; what the
      framework sends to a client whose request fails them is the
      framework's doing and is left open.
    - structlog calls and OpenTelemetry spans, events and metrics are
      write-only sinks; they are left out, and [get_telemetry()] is taken
      to be [None]. *)

From Stdlib Require Import ZArith List String Ascii Bool Lia Floats DecimalString.
Import ListNotations.

Local Open Scope Z_scope.

(** ** Python values *)

Module Py.

(** [json.loads] output / [json.dumps] input. *)
#[warnings="-register-all"]
Inductive json : Type :=
| JNull
| JBool (b : bool)
| JInt (z : Z)
| JFloat (f : float)
| JStr (s : string)
| JList (l : list json)
| JDict (kvs : list (string * json)).

(** [d.get(key)] on a dict held as an association list. *)
Fixpoint dict_get {V : Type} (key : string) (d : list (string * V)) : option V :=
  match d with
  | [] => None
  | (k, v) :: rest => if String.eqb k key then Some v else dict_get key rest
  end.

(** [d.get(key, dflt)]. *)
Definition dict_get_default {V : Type} (key : string) (dflt : V) (d : list (string * V)) : V :=
  match dict_get key d with
  | Some v => v
  | None => dflt
  end.

(** [bool(x)] for a float: false exactly for [0.0] and [-0.0]. *)
Definition float_truthy (x : float) : bool := negb (PrimFloat.eqb x 0%float).

(** [bool(x)] for an int. *)
Definition int_truthy (z : Z) : bool := negb (z =? 0).

(** [bool(x)] for a decoded JSON value. *)
Definition truthy (j : json) : bool :=
  match j with
  | JNull => false
  | JBool b => b
  | JInt z => int_truthy z
  | JFloat f => float_truthy f
  | JStr s => negb (String.eqb s EmptyString)
  | JList l => match l with [] => false | _ => true end
  | JDict kvs => match kvs with [] => false | _ => true end
  end.

(** [a or b] where [a : Optional[int]]. *)
Definition or_int (a : option Z) (b : Z) : Z :=
  match a with
  | Some z => if int_truthy z then z else b
  | None => b
  end.

(** [a or b] where [a : Optional[float]]. *)
Definition or_float (a : option float) (b : float) : float :=
  match a with
  | Some x => if float_truthy x then x else b
  | None => b
  end.

(** [range(0, stop, step)] for [step > 0]: [0, step, 2*step, ...] below [stop]. *)
Definition range_step (stop step : nat) : list nat :=
  map (fun k => (k * step)%nat) (seq 0 ((stop + step - 1) / step)).

(** [l[i:i+n]]. *)
Definition slice {A : Type} (i n : nat) (l : list A) : list A := firstn n (skipn i l).

(** [s[:n]] on a string. *)
Definition str_prefix (n : nat) (s : string) : string := substring 0 n s.

(** [str(n)] for a non-negative int. *)
Definition str_of_nat (n : nat) : string := NilEmpty.string_of_uint (Nat.to_uint n).

(** Characters below 256 for which [str.isspace] holds; [str.strip()]
    removes them from both ends. *)
Definition isspace (c : ascii) : bool :=
  let n := nat_of_ascii c in
  ((9 <=? n) && (n <=? 13) || (28 <=? n) && (n <=? 32) || (n =? 133) || (n =? 160))%nat.

Fixpoint lstrip_chars (l : list ascii) : list ascii :=
  match l with
  | c :: rest => if isspace c then lstrip_chars rest else l
  | [] => []
  end.

Definition strip (s : string) : string :=
  string_of_list_ascii
    (rev (lstrip_chars (rev (lstrip_chars (list_ascii_of_string s))))).

(** The integer nearest to [a / b] for [b > 0], ties to the even one. *)
Definition div_half_even (a b : Z) : Z :=
  let q := a / b in
  match (2 * (a mod b) ?= b) with
  | Lt => q
  | Gt => q + 1
  | Eq => if Z.even q then q else q + 1
  end.

(** The digits CPython prints for the exact binary value [m * 2^e] with
    [ndigits] decimals, correctly rounded (half to even), as one integer
    that counts units of [10^-ndigits]. *)
Definition scaled_half_even (m : positive) (e ndigits : Z) : Z :=
  let p := 10 ^ ndigits in
  if 0 <=? e then Zpos m * 2 ^ e * p
  else div_half_even (Zpos m * p) (2 ^ (- e)).

(** The printed decimal [(-1)^s * n / 10^ndigits] read back as the nearest
    double. *)
Definition decimal_to_float (s : bool) (n ndigits : Z) : float :=
  match n with
  | Zpos n' =>
      SF2Prim (SFdiv prec emax (S754_finite s n' 0)
                 (S754_finite false (Z.to_pos (10 ^ ndigits)) 0))
  | _ => SF2Prim (S754_zero s)
  end.

(** [round(x, ndigits)] for a float and [0 <= ndigits]: CPython prints the
    exact binary value with [ndigits] decimals, correctly rounded (half to
    even), and reads the decimal back as the nearest double.  Zeros,
    infinities and NaN round to themselves. *)
Definition round (x : float) (ndigits : Z) : float :=
  match Prim2SF x with
  | S754_finite s m e => decimal_to_float s (scaled_half_even m e ndigits) ndigits
  | _ => x
  end.

(** "Rounded to [ndigits] decimal places", in the words of the
    specification: [n] units of [10^-ndigits] are a rounding of the value
    [m * 2^e] when no integer is nearer to [m * 2^e * 10^ndigits] than
    [n], and [n] is the even one where two integers are equally near.
    Written without fractions, with [a / b] for [m * 2^e * 10^ndigits]. *)
Definition nearest_scaled (m : positive) (e ndigits n : Z) : Prop :=
  let a := Zpos m * 10 ^ ndigits * 2 ^ Z.max e 0 in
  let b := 2 ^ Z.max (- e) 0 in
  2 * Z.abs (a - n * b) <= b /\ (2 * Z.abs (a - n * b) = b -> Z.even n = true).

(** [float(z)], the conversion an int undergoes in mixed arithmetic. *)
Definition float_of_int (z : Z) : float :=
  SF2Prim (binary_normalize prec emax z 0 false).

(** [range(n)] *)
Definition range (n : Z) : list Z := map Z.of_nat (seq 0 (Z.to_nat n)).

(** [len(l)] *)
Definition len {A : Type} (l : list A) : Z := Z.of_nat (List.length l).

(** [np.array(xs, dtype=np.float32).tolist()] on one entry: round to
    binary32 (nearest, ties to even; overflow gives an infinity), held
    again as a Python float. *)
Definition float32 (x : float) : float :=
  match Prim2SF x with
  | S754_finite s m e => SF2Prim (binary_round 24 128 s m e)
  | _ => x
  end.

End Py.

(** ** Data model *)

(** The metadata mapping of a stored chunk, as [ingest_service] writes it:
    the three keys the query path reads, each possibly absent, and the
    remaining keys as they are. *)
Record Metadata : Type := {
  md_source : option string;
  md_chunk_index : option Z;
  md_source_text : option string;
  md_other : list (string * Py.json)
}.

(** [{}] *)
Definition empty_metadata : Metadata :=
  {| md_source := None; md_chunk_index := None; md_source_text := None; md_other := [] |}.

(** An element of the list passed to [upsert_vectors]. *)
Record VectorRecord : Type := {
  v_id : string;
  v_values : list float;
  v_metadata : Metadata
}.

(** [{"key": ..., "data": {"float32": ...}, "metadata": ...}] *)
Record FormattedVector : Type := {
  fv_key : string;
  fv_float32 : list float;
  fv_metadata : Metadata
}.

(** An element of [response["vectors"]] of the index's query call. *)
Record ResponseVector : Type := {
  rv_key : string;
  rv_distance : option float;
  rv_metadata : option Metadata
}.

(** The query call's response; ["vectors"] may be absent. *)
Record QueryResponse : Type := {
  qr_vectors : option (list ResponseVector)
}.

(** The keyword arguments of the index's query call. *)
Record QueryParams : Type := {
  qp_vectorBucketName : string;
  qp_indexName : string;
  qp_queryVector : list float;
  qp_topK : Z;
  qp_returnDistance : bool;
  qp_returnMetadata : bool;
  qp_filter : option (list (string * Py.json))
}.

(** [{"id": ..., "score": ..., "metadata": ...}] *)
Record Match : Type := {
  m_id : string;
  m_score : float;
  m_metadata : Metadata
}.

(** ** Effects *)

Inductive exn : Type :=
| ClientError (code : string)   (* botocore ClientError with e.response['Error']['Code'] *)
| ValueError (msg : string)
| KeyError (key : string)
| TypeError
| AttributeError
| IndexError
| OtherError (name : string).   (* anything else, e.g. a botocore connection error *)

Inductive outcome (A : Type) : Type :=
| Ret (a : A)
| Raise (e : exn).
Arguments Ret {A} a.
Arguments Raise {A} e.

Inductive event : Type :=
| EvTime (t : float)                                        (* time.time() *)
| EvNow (iso : string)                                      (* datetime.now(timezone.utc).isoformat() *)
| EvSleep (seconds : float)                                 (* time.sleep *)
| EvInvokeModel (model_id : string) (body : Py.json)        (* bedrock_client.invoke_model *)
| EvPutVectors (bucket index : string) (batch : list FormattedVector)
| EvQueryVectors (params : QueryParams)
| EvDeleteVectors (bucket index : string) (keys : list string).

Definition trace : Type := list event.

(** What lies outside the repository: what the clock shows and what the
    services answer, given everything done so far, and how numpy reads a
    decoded JSON value as a vector of numbers. *)
Record Env : Type := {
  numpy_reads : Py.json -> outcome (list float);
    (* the entries np.array(x, dtype=np.float32) finds in x, before they
       are narrowed to float32, or the exception numpy raises; this is for
       a value numpy takes as a flat vector or refuses: one it takes as a
       scalar or as a matrix is not covered *)
  clock : trace -> float;
  now_iso : trace -> string;
  invoke_model_response : trace -> string -> Py.json -> outcome (list (string * Py.json));
  put_vectors_response : trace -> string -> string -> list FormattedVector -> outcome unit;
  query_vectors_response : trace -> QueryParams -> outcome QueryResponse;
  delete_vectors_response : trace -> string -> string -> list string -> outcome unit
}.

Definition M (A : Type) : Type := trace -> outcome A * trace.

Definition ret {A : Type} (a : A) : M A := fun tr => (Ret a, tr).

Definition raise {A : Type} (e : exn) : M A := fun tr => (Raise e, tr).

Definition bind {A B : Type} (c : M A) (k : A -> M B) : M B :=
  fun tr =>
    match c tr with
    | (Ret a, tr') => k a tr'
    | (Raise e, tr') => (Raise e, tr')
    end.

(** [try: c  except ClientError as e: h e]; other exceptions pass through. *)
Definition try_except_ClientError {A : Type} (c : M A) (h : string -> M A) : M A :=
  fun tr =>
    match c tr with
    | (Raise (ClientError code), tr') => h code tr'
    | r => r
    end.

(** [try: c  except Exception: h] *)
Definition try_except {A : Type} (c : M A) (h : M A) : M A :=
  fun tr =>
    match c tr with
    | (Raise _, tr') => h tr'
    | r => r
    end.

Declare Scope py_scope.
Delimit Scope py_scope with py.
Notation "x <- c ;; k" := (bind c (fun x => k))
  (at level 61, c at next level, right associativity) : py_scope.
Notation "c ;; k" := (bind c (fun _ => k))
  (at level 61, right associativity) : py_scope.
Local Open Scope py_scope.

(** The events a run added to the trace it started from. *)
Definition new_events (before after : trace) : trace := skipn (List.length before) after.

(** The batches of the put calls in a trace, in call order. *)
Fixpoint put_batches (tr : trace) : list (list FormattedVector) :=
  match tr with
  | [] => []
  | EvPutVectors _ _ b :: rest => b :: put_batches rest
  | _ :: rest => put_batches rest
  end.

(** The delays of the sleeps in a trace, in order. *)
Fixpoint sleeps (tr : trace) : list float :=
  match tr with
  | [] => []
  | EvSleep d :: rest => d :: sleeps rest
  | _ :: rest => sleeps rest
  end.

(** The key batches of the delete calls in a trace, in call order. *)
Fixpoint delete_batches (tr : trace) : list (list string) :=
  match tr with
  | [] => []
  | EvDeleteVectors _ _ ks :: rest => ks :: delete_batches rest
  | _ :: rest => delete_batches rest
  end.

(** The parameters of the query calls in a trace, in order. *)
Fixpoint query_calls (tr : trace) : list QueryParams :=
  match tr with
  | [] => []
  | EvQueryVectors p :: rest => p :: query_calls rest
  | _ :: rest => query_calls rest
  end.

(** The put call answers by position: the [n]-th put call of a run gets
    [script n], whatever the batch. *)
Definition put_scripted (env : Env) (script : nat -> outcome unit) : Prop :=
  forall tr bucket index batch,
    put_vectors_response env tr bucket index batch = script (List.length (put_batches tr)).

(** The same for the delete call. *)
Definition delete_scripted (env : Env) (script : nat -> outcome unit) : Prop :=
  forall tr bucket index keys,
    delete_vectors_response env tr bucket index keys = script (List.length (delete_batches tr)).

(** The model calls in a trace, in order. *)
Fixpoint model_calls (tr : trace) : list (string * Py.json) :=
  match tr with
  | [] => []
  | EvInvokeModel m b :: rest => (m, b) :: model_calls rest
  | _ :: rest => model_calls rest
  end.

Section Effects.

Variable env : Env.

Definition time_time : M float :=
  fun tr => let t := clock env tr in (Ret t, tr ++ [EvTime t]).

Definition datetime_now_isoformat : M string :=
  fun tr => let s := now_iso env tr in (Ret s, tr ++ [EvNow s]).

Definition time_sleep (seconds : float) : M unit :=
  fun tr => (Ret tt, tr ++ [EvSleep seconds]).

Definition invoke_model (model_id : string) (body : Py.json) : M (list (string * Py.json)) :=
  fun tr => (invoke_model_response env tr model_id body, tr ++ [EvInvokeModel model_id body]).

Definition s3vectors_put_vectors (bucket index : string) (batch : list FormattedVector) : M unit :=
  fun tr => (put_vectors_response env tr bucket index batch, tr ++ [EvPutVectors bucket index batch]).

Definition s3vectors_query_vectors (params : QueryParams) : M QueryResponse :=
  fun tr => (query_vectors_response env tr params, tr ++ [EvQueryVectors params]).

Definition s3vectors_delete_vectors (bucket index : string) (keys : list string) : M unit :=
  fun tr => (delete_vectors_response env tr bucket index keys, tr ++ [EvDeleteVectors bucket index keys]).

End Effects.

(** ** Vector Index Gateway: [src/s3_vector_client.py] *)

Module S3VectorClient.

Record t : Type := {
  bucket_name : string;
  index_name : string;
  max_retries : Z;
  retry_delay : float
}.

(** [__init__] *)
Definition init (region bucket index : string) : t :=
  {| bucket_name := bucket; index_name := index; max_retries := 3; retry_delay := 1%float |}.

(** One iteration of the formatting loop of [upsert_vectors]. *)
Definition format_vector (v : VectorRecord) : FormattedVector :=
  {| fv_key := v_id v;
     fv_float32 := map Py.float32 (v_values v);
     fv_metadata := v_metadata v |}.

(** How one attempt of the retry loop ends when it does not raise. *)
Inductive attempt_end : Type := Break | Continue.

(** [1 - (distance / 2)] with [distance = vector.get("distance", 0)]. *)
Definition similarity_score (vector : ResponseVector) : float :=
  let distance := match rv_distance vector with Some d => d | None => 0%float end in
  (1 - distance / 2)%float.

(** The dict appended for a vector that passes the threshold. *)
Definition match_of (vector : ResponseVector) : Match :=
  {| m_id := rv_key vector;
     m_score := similarity_score vector;
     m_metadata := match rv_metadata vector with
                   | Some md => md
                   | None => empty_metadata
                   end |}.

(** The body of the result loop of [query_vectors]. *)
Definition add_match (similarity_threshold : float) (matches : list Match)
    (vector : ResponseVector) : list Match :=
  if (similarity_threshold <=? similarity_score vector)%float
  then matches ++ [match_of vector]
  else matches.

(** [response.get("vectors", [])] *)
Definition response_vectors (response : QueryResponse) : list ResponseVector :=
  match qr_vectors response with Some vs => vs | None => [] end.

(** [params] of [query_vectors]; ["filter"] is set only for a truthy
    [filter_dict]. *)
Definition query_params (self : t) (query_embedding : list float) (top_k : Z)
    (filter_dict : option (list (string * Py.json))) : QueryParams :=
  let query_array := map Py.float32 query_embedding in
  {| qp_vectorBucketName := bucket_name self;
     qp_indexName := index_name self;
     qp_queryVector := query_array;
     qp_topK := top_k;
     qp_returnDistance := true;
     qp_returnMetadata := true;
     qp_filter := match filter_dict with
                  | Some (_ :: _) => filter_dict
                  | _ => None
                  end |}.

(** The dict [get_index_stats] returns. *)
Record IndexStats : Type := {
  total_vectors : Z;
  dimension : Z;
  index_size : Z;
  status : string
}.

(** [get_index_stats]: [__init__] sets no [settings] attribute, so
    [hasattr(self, 'settings')] is false. *)
Definition get_index_stats (self : t) : IndexStats :=
  {| total_vectors := 0; dimension := 1024; index_size := 0; status := "preview_mode" |}.

Section WithEnv.

Variable env : Env.

(** The retry loop of [upsert_vectors] for one batch:
    [for attempt in range(self.max_retries)]. *)
Fixpoint put_batch (self : t) (batch : list FormattedVector) (attempts : list Z)
    (total_uploaded : Z) : M Z :=
  match attempts with
  | [] => ret total_uploaded
  | attempt :: rest =>
      r <- try_except_ClientError
             (time_time env ;;
              s3vectors_put_vectors env (bucket_name self) (index_name self) batch ;;
              ret Break)
             (fun code =>
                if String.eqb code "TooManyRequestsException"
                then if attempt <? max_retries self - 1
                     then time_sleep (retry_delay self * Py.float_of_int (2 ^ attempt))%float ;;
                          ret Continue
                     else raise (ClientError code)
                else raise (ClientError code)) ;;
      match r with
      | Break => ret (total_uploaded + Py.len batch)
      | Continue => put_batch self batch rest total_uploaded
      end
  end.

(** The batch loop of [upsert_vectors]:
    [for i in range(0, len(formatted_vectors), batch_size)]. *)
Fixpoint put_batches_loop (self : t) (formatted_vectors : list FormattedVector)
    (batch_size : nat) (starts : list nat) (total_uploaded : Z) : M Z :=
  match starts with
  | [] => ret total_uploaded
  | i :: rest =>
      let batch := Py.slice i batch_size formatted_vectors in
      total_uploaded' <- put_batch self batch (Py.range (max_retries self)) total_uploaded ;;
      put_batches_loop self formatted_vectors batch_size rest total_uploaded'
  end.

Definition upsert_vectors (self : t) (vectors : list VectorRecord) : M Z :=
  let formatted_vectors := map format_vector vectors in
  let total_uploaded := 0 in
  let batch_size := 500%nat in
  put_batches_loop self formatted_vectors batch_size
    (Py.range_step (List.length formatted_vectors) batch_size) total_uploaded.

Definition query_vectors (self : t) (query_embedding : list float) (top_k : Z)
    (filter_dict : option (list (string * Py.json))) (similarity_threshold : float)
    : M (list Match) :=
  let params := query_params self query_embedding top_k filter_dict in
  start_time <- time_time env ;;
  response <- try_except_ClientError
                (response <- s3vectors_query_vectors env params ;;
                 time_time env ;;
                 time_time env ;;
                 ret response)
                (fun code => time_time env ;; raise (ClientError code)) ;;
  processing_start <- time_time env ;;
  let matches := fold_left (add_match similarity_threshold) (response_vectors response) [] in
  time_time env ;;
  ret matches.

(** The batch loop of [delete_vectors]. *)
Fixpoint delete_batches_loop (self : t) (vector_ids : list string) (batch_size : nat)
    (starts : list nat) (deleted_count : Z) : M Z :=
  match starts with
  | [] => ret deleted_count
  | i :: rest =>
      let batch := Py.slice i batch_size vector_ids in
      try_except_ClientError
        (s3vectors_delete_vectors env (bucket_name self) (index_name self) batch)
        (fun code => raise (ClientError code)) ;;
      delete_batches_loop self vector_ids batch_size rest (deleted_count + Py.len batch)
  end.

Definition delete_vectors (self : t) (vector_ids : list string) : M Z :=
  let deleted_count := 0 in
  let batch_size := 500%nat in
  delete_batches_loop self vector_ids batch_size
    (Py.range_step (List.length vector_ids) batch_size) deleted_count.

End WithEnv.

End S3VectorClient.

(** ** Query Orchestrator: [src/rag_service.py] *)

Module Config.

(** The fields of [config.Settings] the query path reads. *)
Record Settings : Type := {
  aws_region : string;
  s3_vector_bucket_name : string;
  s3_vector_index_name : string;
  embed_model_id : string;
  llm_model_id : string;
  top_k : Z;
  similarity_threshold : float;
  max_tokens : Z;
  temperature : float
}.

End Config.

(** An element of ["sources"] in the result of [process_query]. *)
Record Source : Type := {
  src_source : string;
  src_chunk_index : Z;
  src_similarity_score : float;
  src_text_preview : string
}.

(** ["performance_breakdown"] *)
Record PerformanceBreakdown : Type := {
  embedding_ms : float;
  vector_search_ms : float;
  llm_generation_ms : float;
  total_ms : float
}.

(** The dict [process_query] returns. *)
Record QueryResult : Type := {
  res_answer : string;
  res_query : string;
  res_sources : list Source;
  res_processing_time_ms : float;
  res_chunks_found : Z;
  res_timestamp : string;
  res_performance_breakdown : option PerformanceBreakdown
}.

Module RAGService.

Record t : Type := {
  settings : Config.Settings;
  vector_client : S3VectorClient.t
}.

(** [__init__] with [_setup_clients]. *)
Definition init (s : Config.Settings) : t :=
  {| settings := s;
     vector_client :=
       S3VectorClient.init (Config.aws_region s) (Config.s3_vector_bucket_name s)
         (Config.s3_vector_index_name s) |}.

Definition nl : string := String (ascii_of_nat 10) EmptyString.

(** Whether [len(j)] is defined: it is for a str, a list and a dict, and
    raises [TypeError] for [None], a bool and a number. *)
Definition has_len (j : Py.json) : bool :=
  match j with
  | Py.JStr _ | Py.JList _ | Py.JDict _ => true
  | _ => false
  end.

(** [{"inputText": text}] *)
Definition embedding_request (text : string) : Py.json :=
  Py.JDict [("inputText"%string, Py.JStr text)].

(** The prompt of [generate_answer]. *)
Definition prompt_of (query context : string) : string :=
  ("You are a helpful assistant. Use the context below to answer the question. "
   ++ "If the context doesn't contain enough information, say so clearly."
   ++ "When answering a question, be concise and to the point."
   ++ "For off topic questions, respond with 'I'm sorry, I can't help with that.'" ++ nl ++ nl
   ++ "Context:" ++ nl ++ context ++ nl ++ nl
   ++ "Question: " ++ query ++ nl ++ nl
   ++ "Answer:")%string.

(** The request body of [generate_answer]. *)
Definition chat_request (s : Config.Settings) (prompt : string) : Py.json :=
  Py.JDict
    [("anthropic_version"%string, Py.JStr "bedrock-2023-05-31");
     ("max_tokens"%string, Py.JInt (Config.max_tokens s));
     ("temperature"%string, Py.JFloat (Config.temperature s));
     ("messages"%string,
       Py.JList
         [Py.JDict
            [("role"%string, Py.JStr "user");
             ("content"%string,
               Py.JList [Py.JDict [("type"%string, Py.JStr "text");
                                   ("text"%string, Py.JStr prompt)]])]])].

(** [content[0]] *)
Definition first_item (content : Py.json) : outcome Py.json :=
  match content with
  | Py.JList (x :: _) => Ret x
  | Py.JList [] => Raise IndexError
  | Py.JStr (String c _) => Ret (Py.JStr (String c EmptyString))
  | Py.JStr EmptyString => Raise IndexError
  | Py.JDict _ => Raise (KeyError "0")
  | _ => Raise TypeError
  end.

(** [block["text"]] *)
Definition text_item (block : Py.json) : outcome Py.json :=
  match block with
  | Py.JDict kvs =>
      match Py.dict_get "text" kvs with
      | Some v => Ret v
      | None => Raise (KeyError "text")
      end
  | _ => Raise TypeError
  end.

(** [v.strip()] *)
Definition strip_item (v : Py.json) : outcome string :=
  match v with
  | Py.JStr s => Ret (Py.strip s)
  | _ => Raise AttributeError
  end.

(** [usage.get("input_tokens", 0)] and [usage.get("output_tokens", 0)]
    in the completion log line: they need [usage] to be a dict. *)
Definition usage_counters (usage : Py.json) : outcome (Py.json * Py.json) :=
  match usage with
  | Py.JDict kvs =>
      Ret (Py.dict_get_default "input_tokens" (Py.JInt 0) kvs,
           Py.dict_get_default "output_tokens" (Py.JInt 0) kvs)
  | _ => Raise AttributeError
  end.

Definition lift {A : Type} (o : outcome A) : M A := fun tr => (o, tr).

(** The text of the first content block, when the body has one:
    [content] is a list whose first element is a dict with a string under
    ["text"]. *)
Definition first_text_block (response_body : list (string * Py.json)) : option string :=
  match Py.dict_get "content" response_body with
  | Some (Py.JList (Py.JDict block :: _)) =>
      match Py.dict_get "text" block with
      | Some (Py.JStr s) => Some s
      | _ => None
      end
  | _ => None
  end.

(** The exceptions reading a response body can raise. *)
Definition is_format_error (e : exn) : bool :=
  match e with
  | ValueError _ | KeyError _ | TypeError | AttributeError | IndexError => true
  | ClientError _ | OtherError _ => false
  end.

(** The body of the context loop of [process_query]. *)
Definition source_of (m : Match) : Source :=
  let chunk_text := match md_source_text (m_metadata m) with Some s => s | None => EmptyString end in
  {| src_source := match md_source (m_metadata m) with Some s => s | None => "Unknown"%string end;
     src_chunk_index := match md_chunk_index (m_metadata m) with Some i => i | None => 0 end;
     src_similarity_score := Py.round (m_score m) 4;
     src_text_preview :=
       if (200 <? String.length chunk_text)%nat
       then (Py.str_prefix 200 chunk_text ++ "...")%string
       else chunk_text |}.

Definition context_part (i : nat) (m : Match) : string :=
  let chunk_text := match md_source_text (m_metadata m) with Some s => s | None => EmptyString end in
  ("[Source " ++ Py.str_of_nat (i + 1) ++ "]: " ++ chunk_text)%string.

(** [for i, match in enumerate(similar_chunks)], from index [i]. *)
Fixpoint context_parts_from (i : nat) (similar_chunks : list Match) : list string :=
  match similar_chunks with
  | [] => []
  | m :: rest => context_part i m :: context_parts_from (S i) rest
  end.

Definition no_results_answer : string :=
  "I couldn't find any relevant information to answer your question.".

Section WithEnv.

Variable env : Env.

Definition generate_embedding (self : t) (text : string) : M Py.json :=
  start_time <- time_time env ;;
  try_except_ClientError
    (response_body <- invoke_model env (Config.embed_model_id (settings self)) (embedding_request text) ;;
     embedding <- match Py.dict_get "embedding" response_body with
                  | Some j => ret j
                  | None => raise (KeyError "embedding")
                  end ;;
     time_time env ;;
     time_time env ;;
     if has_len embedding then ret embedding else raise TypeError)
    (fun code => time_time env ;; raise (ClientError code)).

(** [search_similar_chunks]: the embedding goes to [query_vectors] as the
    model sent it, and numpy reads it there before anything else is done. *)
Definition search_similar_chunks (self : t) (query_embedding : Py.json) (top_k : Z)
    (threshold : float) (filter_dict : option (list (string * Py.json))) : M (list Match) :=
  query_array <- lift (numpy_reads env query_embedding) ;;
  S3VectorClient.query_vectors env (vector_client self) query_array top_k filter_dict threshold.

Definition generate_answer (self : t) (query context : string) : M string :=
  let prompt := prompt_of query context in
  start_time <- time_time env ;;
  try_except_ClientError
    (response_body <- invoke_model env (Config.llm_model_id (settings self))
                        (chat_request (settings self) prompt) ;;
     match Py.dict_get "content" response_body with
     | Some content =>
         if Py.truthy content
         then
           block <- lift (first_item content) ;;
           text <- lift (text_item block) ;;
           answer <- lift (strip_item text) ;;
           let finish_reason := Py.dict_get_default "stop_reason" (Py.JStr "unknown") response_body in
           let usage := Py.dict_get_default "usage" (Py.JDict []) response_body in
           time_time env ;;
           time_time env ;;
           lift (usage_counters usage) ;;
           ret answer
         else raise (ValueError "Unexpected response format")
     | None => raise (ValueError "Unexpected response format")
     end)
    (fun code => time_time env ;; raise (ClientError code)).

Definition elapsed_ms (since now : float) : float := ((now - since) * 1000)%float.

(** [process_query] from the first [phase_start = time.time()] on. *)
Definition run_pipeline (self : t) (query : string) (start_time : float) (max_chunks : Z)
    (similarity_threshold : float)
    (metadata_filter : option (list (string * Py.json))) : M QueryResult :=
  phase_start <- time_time env ;;
  query_embedding <- generate_embedding self query ;;
  now <- time_time env ;;
  let embedding_time_ms := elapsed_ms phase_start now in
  phase_start <- time_time env ;;
  similar_chunks <- search_similar_chunks self query_embedding max_chunks
                      similarity_threshold metadata_filter ;;
  now <- time_time env ;;
  let search_time_ms := elapsed_ms phase_start now in
  match similar_chunks with
  | [] =>
      now <- time_time env ;;
      stamp <- datetime_now_isoformat env ;;
      ret {| res_answer := no_results_answer;
             res_query := query;
             res_sources := [];
             res_processing_time_ms := Py.round (elapsed_ms start_time now) 2;
             res_chunks_found := 0;
             res_timestamp := stamp;
             res_performance_breakdown := None |}
  | _ :: _ =>
      let context_parts := context_parts_from 0 similar_chunks in
      let sources := map source_of similar_chunks in
      let context := String.concat (nl ++ nl) context_parts in
      phase_start <- time_time env ;;
      answer <- generate_answer self query context ;;
      now <- time_time env ;;
      let generation_time_ms := elapsed_ms phase_start now in
      now <- time_time env ;;
      let processing_time := Py.round (elapsed_ms start_time now) 2 in
      stamp <- datetime_now_isoformat env ;;
      ret {| res_answer := answer;
             res_query := query;
             res_sources := sources;
             res_processing_time_ms := processing_time;
             res_chunks_found := Py.len similar_chunks;
             res_timestamp := stamp;
             res_performance_breakdown :=
               Some {| embedding_ms := Py.round embedding_time_ms 2;
                       vector_search_ms := Py.round search_time_ms 2;
                       llm_generation_ms := Py.round generation_time_ms 2;
                       total_ms := processing_time |} |}
  end.

Definition process_query (self : t) (query : string) (max_chunks : option Z)
    (similarity_threshold : option float)
    (metadata_filter : option (list (string * Py.json))) : M QueryResult :=
  start_time <- time_time env ;;
  let max_chunks := Py.or_int max_chunks (Config.top_k (settings self)) in
  let similarity_threshold :=
    Py.or_float similarity_threshold (Config.similarity_threshold (settings self)) in
  run_pipeline self query start_time max_chunks similarity_threshold metadata_filter.

(** [health_check]: each dependency is probed under its own
    [try ... except Exception]. *)
Definition health_check (self : t) : M (list (string * string)) :=
  bedrock <- try_except (generate_embedding self "test" ;; ret "healthy"%string)
               (ret "unhealthy"%string) ;;
  s3_vectors <- try_except
                  (let _ := S3VectorClient.get_index_stats (vector_client self) in
                   ret "healthy"%string)
                  (ret "unhealthy"%string) ;;
  ret [("bedrock"%string, bedrock); ("s3_vectors"%string, s3_vectors)].

End WithEnv.

End RAGService.

(** ** Boundary: the request model and the [/query] handler of [src/app.py] *)

Module App.

Record QueryRequest : Type := {
  query : string;
  max_chunks : option Z;
  similarity_threshold : option float;
  metadata_filter : option (list (string * Py.json))
}.

(** The [Field] constraints of [QueryRequest], checked by the framework
    before the handler runs. *)
Definition valid (r : QueryRequest) : bool :=
  ((1 <=? String.length (query r)) && (String.length (query r) <=? 1000))%nat
  && match max_chunks r with
     | Some n => (1 <=? n) && (n <=? 20)
     | None => true
     end
  && match similarity_threshold r with
     | Some x => (0 <=? x)%float && (x <=? 1)%float
     | None => true
     end.

(** What a [POST /query] comes to.  [Ok200]: the handler ran and its
    result is the body.  [Rejected]: the request does not meet the
    constraints of [QueryRequest], so there is no [request] to call the
    handler with and its body is not run; [app.py] installs nothing for
    this case, and what the framework sends in its place is not code of
    this repository. *)
Inductive response : Type :=
| Ok200 (result : QueryResult)
| Rejected.

Definition query_documents (env : Env) (service : RAGService.t) (request : QueryRequest)
    : M response :=
  if valid request
  then
    result <- RAGService.process_query env service (query request) (max_chunks request)
                (similarity_threshold request) (metadata_filter request) ;;
    ret (Ok200 result)
  else ret Rejected.

(** The body of [GET /health]. *)
Record HealthResponse : Type := {
  h_status : string;
  h_timestamp : string;
  h_services : list (string * string)
}.

Definition health_check (env : Env) (service : RAGService.t) : M HealthResponse :=
  services <- RAGService.health_check env service ;;
  let status :=
    if forallb (fun kv => String.eqb (snd kv) "healthy") services
    then "healthy"%string else "degraded"%string in
  stamp <- datetime_now_isoformat env ;;
  ret {| h_status := status; h_timestamp := stamp; h_services := services |}.

End App.

(** ** Ingestion: [src/ingest_service.py] and [scripts/ingest.py] *)

Module Ingest.

(** A [pathlib.Path] as the ingester uses it. *)
Record FilePath : Type := {
  fp_str : string;     (* str(file_path) *)
  fp_name : string     (* file_path.name *)
}.

(** What ingestion uses from outside the repository: the file system,
    langchain's loader and splitter (a document and a chunk are taken as
    their [page_content]), and [hashlib.md5]. *)
Record Files : Type := {
  dir_exists : string -> bool;                          (* Path(p).exists() *)
  dir_str : string -> string;                           (* str(Path(p)) *)
  rglob_txt : string -> list FilePath;                  (* list(Path(p).rglob("*.txt")) *)
  loader_load : FilePath -> outcome (list string);      (* TextLoader(...).load() *)
  split_documents : list string -> outcome (list string);
  md5_hexdigest : string -> string                      (* hashlib.md5(s.encode()).hexdigest() *)
}.

(** An element of the list [process_document] returns; ["values"] is the
    embedding as the model sent it. *)
Record ProcessedChunk : Type := {
  pc_id : string;
  pc_values : Py.json;
  pc_metadata : Metadata
}.

Record DocumentIngester : Type := {
  settings : Config.Settings;
  vector_client : S3VectorClient.t
}.

(** [__init__]; the bucket and index set-up calls only log. *)
Definition init (s : Config.Settings) : DocumentIngester :=
  {| settings := s;
     vector_client :=
       S3VectorClient.init (Config.aws_region s) (Config.s3_vector_bucket_name s)
         (Config.s3_vector_index_name s) |}.

(** The metadata dict built in [process_document]. *)
Definition chunk_metadata (file_path : FilePath) (i total : nat) (ingested_at : string)
    (page_content : string) : Metadata :=
  {| md_source := Some (fp_str file_path);
     md_chunk_index := Some (Z.of_nat i);
     md_source_text := Some page_content;
     md_other :=
       [("total_chunks"%string, Py.JInt (Z.of_nat total));
        ("file_name"%string, Py.JStr (fp_name file_path));
        ("ingested_at"%string, Py.JStr ingested_at);
        ("text_length"%string, Py.JInt (Z.of_nat (String.length page_content)))] |}.

(** The chunks as [upsert_vectors] takes them in its formatting loop:
    numpy reads the values of each chunk in turn, and the first value it
    cannot read raises. *)
Fixpoint vector_records (env : Env) (cs : list ProcessedChunk) : outcome (list VectorRecord) :=
  match cs with
  | [] => Ret []
  | c :: rest =>
      match numpy_reads env (pc_values c) with
      | Raise e => Raise e
      | Ret values =>
          match vector_records env rest with
          | Raise e => Raise e
          | Ret vs =>
              Ret ({| v_id := pc_id c; v_values := values; v_metadata := pc_metadata c |} :: vs)
          end
      end
  end.

(** The dict form of [get_index_stats()]. *)
Definition stats_dict (st : S3VectorClient.IndexStats) : Py.json :=
  Py.JDict [("total_vectors"%string, Py.JInt (S3VectorClient.total_vectors st));
            ("dimension"%string, Py.JInt (S3VectorClient.dimension st));
            ("index_size"%string, Py.JInt (S3VectorClient.index_size st));
            ("status"%string, Py.JStr (S3VectorClient.status st))].

(** The embedding the model gives for a text when its answer depends on
    the text alone: [None] when the call or the lookup of ["embedding"]
    raises. *)
Definition embedded (answer : string -> outcome (list (string * Py.json))) (text : string)
    : option Py.json :=
  match answer text with
  | Ret body => Py.dict_get "embedding" body
  | Raise _ => None
  end.

(** The chunks [process_document] keeps, as (index, text, embedding), for
    chunks numbered from [i]. *)
Fixpoint kept_chunks (answer : string -> outcome (list (string * Py.json))) (i : nat)
    (chunks : list string) : list (nat * string * Py.json) :=
  match chunks with
  | [] => []
  | c :: rest =>
      match embedded answer c with
      | Some j => (i, c, j) :: kept_chunks answer (S i) rest
      | None => kept_chunks answer (S i) rest
      end
  end.

(** (index, text, embedding) of a processed chunk, read back from it. *)
Definition chunk_summary (c : ProcessedChunk) : option (Z * string * Py.json) :=
  match md_chunk_index (pc_metadata c), md_source_text (pc_metadata c) with
  | Some i, Some t => Some (i, t, pc_values c)
  | _, _ => None
  end.

Section WithEnv.

Variable env : Env.
Variable files : Files.

Definition create_document_id (source : string) (chunk_index : nat) : string :=
  md5_hexdigest files (source ++ ":" ++ Py.str_of_nat chunk_index).

Definition generate_embedding (self : DocumentIngester) (text : string) : M Py.json :=
  response_body <- invoke_model env (Config.embed_model_id (settings self))
                     (RAGService.embedding_request text) ;;
  match Py.dict_get "embedding" response_body with
  | Some j => ret j
  | None => raise (KeyError "embedding")
  end.

(** The chunk loop of [process_document]:
    [for i, chunk in enumerate(chunks)], from index [i]. *)
Fixpoint process_chunks (self : DocumentIngester) (file_path : FilePath) (total : nat)
    (i : nat) (chunks : list string) (processed_chunks : list ProcessedChunk)
    : M (list ProcessedChunk) :=
  match chunks with
  | [] => ret processed_chunks
  | page_content :: rest =>
      processed_chunks' <-
        try_except
          (embedding <- generate_embedding self page_content ;;
           ingested_at <- datetime_now_isoformat env ;;
           ret (processed_chunks ++
                [{| pc_id := create_document_id (fp_str file_path) i;
                    pc_values := embedding;
                    pc_metadata :=
                      chunk_metadata file_path i total ingested_at page_content |}]))
          (ret processed_chunks) ;;
      process_chunks self file_path total (S i) rest processed_chunks'
  end.

Definition process_document (self : DocumentIngester) (file_path : FilePath)
    : M (list ProcessedChunk) :=
  documents <- RAGService.lift (loader_load files file_path) ;;
  match documents with
  | [] => ret []
  | _ :: _ =>
      chunks <- RAGService.lift (split_documents files documents) ;;
      process_chunks self file_path (List.length chunks) 0 chunks []
  end.

(** The file loop of [ingest_directory]. *)
Fixpoint ingest_files (self : DocumentIngester) (text_files : list FilePath)
    (all_chunks : list ProcessedChunk) (successful_files : Z)
    : M (list ProcessedChunk * Z) :=
  match text_files with
  | [] => ret (all_chunks, successful_files)
  | file_path :: rest =>
      r <- try_except
             (chunks <- process_document self file_path ;;
              ret (all_chunks ++ chunks, successful_files + 1))
             (ret (all_chunks, successful_files)) ;;
      ingest_files self rest (fst r) (snd r)
  end.

(** [self.vector_client.upsert_vectors(all_chunks)]: an exception of
    numpy in the formatting loop comes before any put call. *)
Definition upsert_chunks (self : DocumentIngester) (all_chunks : list ProcessedChunk) : M Z :=
  match vector_records env all_chunks with
  | Ret vectors => S3VectorClient.upsert_vectors env (vector_client self) vectors
  | Raise e => raise e
  end.

Definition ingest_directory (self : DocumentIngester) (directory_path : string)
    : M (list (string * Py.json)) :=
  if negb (dir_exists files directory_path)
  then raise (ValueError ("Directory does not exist: " ++ dir_str files directory_path))
  else
    let text_files := rglob_txt files directory_path in
    match text_files with
    | [] => ret [("files_processed"%string, Py.JInt 0); ("chunks_ingested"%string, Py.JInt 0)]
    | _ :: _ =>
        r <- ingest_files self text_files [] 0 ;;
        let all_chunks := fst r in
        let successful_files := snd r in
        chunks_uploaded <- match all_chunks with
                           | [] => ret 0
                           | _ :: _ => upsert_chunks self all_chunks
                           end ;;
        stats <- try_except
                   (ret (stats_dict (S3VectorClient.get_index_stats (vector_client self))))
                   (ret (Py.JDict [("total_vectors"%string, Py.JInt 0);
                                   ("dimension"%string, Py.JInt 0);
                                   ("index_size"%string, Py.JInt 0)])) ;;
        ret [("files_processed"%string, Py.JInt successful_files);
             ("total_files"%string, Py.JInt (Py.len text_files));
             ("chunks_ingested"%string, Py.JInt chunks_uploaded);
             ("index_stats"%string, stats)]
    end.

End WithEnv.

(** [d[key]] *)
Definition getitem (key : string) (d : list (string * Py.json)) : outcome Py.json :=
  match Py.dict_get key d with
  | Some v => Ret v
  | None => Raise (KeyError key)
  end.

(** [d[key]] when [d] is itself a JSON value. *)
Definition getitem_json (key : string) (d : Py.json) : outcome Py.json :=
  match d with
  | Py.JDict kvs => getitem key kvs
  | _ => Raise TypeError
  end.

(** What the report of [scripts/ingest.py] needs from a result: the four
    values it formats, looked up in the order the [print] calls read them. *)
Definition report_values (result : list (string * Py.json))
    : outcome (Py.json * Py.json * Py.json * Py.json) :=
  match getitem "files_processed" result with
  | Raise e => Raise e
  | Ret files_processed =>
      match getitem "total_files" result with
      | Raise e => Raise e
      | Ret total_files =>
          match getitem "chunks_ingested" result with
          | Raise e => Raise e
          | Ret chunks_ingested =>
              match getitem "index_stats" result with
              | Raise e => Raise e
              | Ret index_stats =>
                  match getitem_json "total_vectors" index_stats with
                  | Raise e => Raise e
                  | Ret total_vectors =>
                      Ret (files_processed, total_files, chunks_ingested, total_vectors)
                  end
              end
          end
      end
  end.

(** [main] of [scripts/ingest.py] for an ingester already built: the exit
    status, 0 when the report was printed, 1 when anything raised. *)
Definition main (env : Env) (files : Files) (ingester : DocumentIngester) (path : string)
    : M Z :=
  try_except
    (result <- ingest_directory env files ingester path ;;
     RAGService.lift (report_values result) ;;
     ret 0)
    (ret 1).

End Ingest.

(** ** Binary64 bounds used for the similarity score *)

Module Binary64.

(** 1 when a location says that digits were dropped, else 0. *)
Definition loc_excess (l : location) : Z :=
  match l with loc_Exact => 0 | loc_Inexact _ => 1 end.

(** The value a shift record stands for is at most [B]. *)
Definition shr_below (mrs : shr_record) (B : Z) : Prop :=
  0 <= shr_m mrs /\ shr_m mrs + (if shr_r mrs || shr_s mrs then 1 else 0) <= B.

(** A zero, or a positive number [m * 2^e <= 1]. *)
Definition at_most_one (x : spec_float) : Prop :=
  match x with
  | S754_zero _ => True
  | S754_finite false m e => e <= 0 /\ Zpos m <= 2 ^ (- e)
  | _ => False
  end.

Definition SF_one : spec_float := S754_finite false 4503599627370496 (-52).
Definition SF_two : spec_float := S754_finite false 4503599627370496 (-51).

(** Two floats with the same sign, mantissa and exponent, or the same
    special value. *)
Definition same_float (x y : float) : bool :=
  match Prim2SF x, Prim2SF y with
  | S754_zero a, S754_zero b => Bool.eqb a b
  | S754_infinity a, S754_infinity b => Bool.eqb a b
  | S754_nan, S754_nan => true
  | S754_finite a m e, S754_finite b m' e' => Bool.eqb a b && Pos.eqb m m' && Z.eqb e e'
  | _, _ => false
  end.

End Binary64.

(** ** Test doubles *)

Module Doubles.

Definition settings : Config.Settings :=
  {| Config.aws_region := "us-east-1";
     Config.s3_vector_bucket_name := "vectors";
     Config.s3_vector_index_name := "rag-index";
     Config.embed_model_id := "amazon.titan-embed-text-v2:0";
     Config.llm_model_id := "us.anthropic.claude-3-5-haiku-20241022-v1:0";
     Config.top_k := 6;
     Config.similarity_threshold := 0.5%float;
     Config.max_tokens := 512;
     Config.temperature := 0.25%float |}.

Definition service : RAGService.t := RAGService.init settings.

Definition client : S3VectorClient.t := RAGService.vector_client service.

(** A reader for the doubles: a list of numbers and booleans is read as
    numpy reads it ([True] as 1.0, [False] as 0.0); the doubles send
    nothing else, and anything else is refused here. *)
Definition number_of_json (j : Py.json) : option float :=
  match j with
  | Py.JFloat f => Some f
  | Py.JInt z => Some (Py.float_of_int z)
  | Py.JBool b => Some (if b then 1%float else 0%float)
  | _ => None
  end.

Fixpoint numbers_of_list (l : list Py.json) : option (list float) :=
  match l with
  | [] => Some []
  | j :: rest =>
      match number_of_json j, numbers_of_list rest with
      | Some f, Some fs => Some (f :: fs)
      | _, _ => None
      end
  end.

Definition reads (j : Py.json) : outcome (list float) :=
  match j with
  | Py.JList l =>
      match numbers_of_list l with
      | Some fs => Ret fs
      | None => Raise (ValueError "could not convert to float")
      end
  | _ => Raise TypeError
  end.

(** A clock that advances one second per effect. *)
Definition clock_by_events (tr : trace) : float := Py.float_of_int (Py.len tr).

(** A world whose services answer as given: the two models by model id,
    the put and delete calls by position, the query call always the same. *)
Definition world (embed chat : outcome (list (string * Py.json)))
    (put : nat -> outcome unit) (query : outcome QueryResponse)
    (del : nat -> outcome unit) : Env :=
  {| numpy_reads := reads;
     clock := clock_by_events;
     now_iso := fun _ => "2025-01-01T00:00:00+00:00"%string;
     invoke_model_response := fun _ model _ =>
       if String.eqb model (Config.embed_model_id settings) then embed else chat;
     put_vectors_response := fun tr _ _ _ => put (List.length (put_batches tr));
     query_vectors_response := fun _ _ => query;
     delete_vectors_response := fun tr _ _ _ => del (List.length (delete_batches tr)) |}.

Definition ok : nat -> outcome unit := fun _ => Ret tt.

Definition rate_limited : outcome unit := Raise (ClientError "TooManyRequestsException").

Definition embedding_body : list (string * Py.json) :=
  [("embedding"%string, Py.JList [Py.JFloat 0.5%float; Py.JFloat 0.25%float])].

Definition chat_body : list (string * Py.json) :=
  [("content"%string,
     Py.JList [Py.JDict [("type"%string, Py.JStr "text"); ("text"%string, Py.JStr " Blue. ")]]);
   ("stop_reason"%string, Py.JStr "end_turn")].

Definition chunk (text : string) : Metadata :=
  {| md_source := Some "data/sky.txt"%string;
     md_chunk_index := Some 0;
     md_source_text := Some text;
     md_other := [] |}.

(** Three stored vectors: distance 0.25, distance 1.5, and one without a
    distance. *)
Definition near : ResponseVector :=
  {| rv_key := "near"; rv_distance := Some 0.25%float; rv_metadata := Some (chunk "The sky is blue.") |}.
Definition far : ResponseVector :=
  {| rv_key := "far"; rv_distance := Some 1.5%float; rv_metadata := Some (chunk "Grass is green.") |}.
Definition bare : ResponseVector :=
  {| rv_key := "bare"; rv_distance := None; rv_metadata := None |}.

(** A stored vector at distance 0.24691, whose score has more than four
    decimals, with a chunk text of 250 characters. *)
#[warnings="-inexact-float"]
Definition close : ResponseVector :=
  {| rv_key := "close"; rv_distance := Some 0.24691%float;
     rv_metadata := Some (chunk (string_of_list_ascii (repeat "a"%char 250))) |}.

Definition three_vectors : QueryResponse := {| qr_vectors := Some [near; far; bare] |}.

Definition no_vectors : QueryResponse := {| qr_vectors := Some [] |}.

(** A world where everything works and the index returns [three_vectors]. *)
Definition happy : Env :=
  world (Ret embedding_body) (Ret chat_body) ok (Ret three_vectors) ok.

(** A world where the index finds nothing. *)
Definition empty_index : Env :=
  world (Ret embedding_body) (Ret chat_body) ok (Ret no_vectors) ok.

Definition record (n : nat) : VectorRecord :=
  {| v_id := Py.str_of_nat n; v_values := [0.5%float]; v_metadata := empty_metadata |}.

Definition records (n : nat) : list VectorRecord := map record (seq 0 n).

Definition keys (n : nat) : list string := map Py.str_of_nat (seq 0 n).

(** Answers by position: succeed, except that call number [n] raises [e]. *)
Definition fails_at (n : nat) (e : exn) : nat -> outcome unit :=
  fun k => if (k =? n)%nat then Raise e else Ret tt.

Definition throttled : exn := ClientError "ThrottlingException".




(** A world whose delete call number [n] (from 0) is throttled. *)
Definition delete_fails_at (n : nat) : Env :=
  world (Ret embedding_body) (Ret chat_body) ok (Ret no_vectors) (fails_at n throttled).

(** A world whose put call number [n] (from 0) is denied. *)
Definition put_fails_at (n : nat) : Env :=
  world (Ret embedding_body) (Ret chat_body) (fails_at n (ClientError "AccessDeniedException"))
    (Ret no_vectors) ok.

(** A world whose embedding model is down. *)
Definition bedrock_down : Env :=
  world (Raise throttled) (Ret chat_body) ok (Ret three_vectors) ok.

(** A world whose index query fails. *)
Definition index_down : Env :=
  world (Ret embedding_body) (Ret chat_body) ok (Raise (ClientError "ServiceUnavailableException")) ok.

(** A model that embeds every text but "bad", by text alone. *)
Definition answer_by_text (text : string) : outcome (list (string * Py.json)) :=
  if String.eqb text "bad" then Raise throttled else Ret embedding_body.

Definition picky_model : Env :=
  {| numpy_reads := reads;
     clock := clock_by_events;
     now_iso := fun _ => "2025-01-01T00:00:00+00:00"%string;
     invoke_model_response := fun _ _ body =>
       match body with
       | Py.JDict [(_, Py.JStr text)] => answer_by_text text
       | _ => Raise throttled
       end;
     put_vectors_response := fun _ _ _ _ => Ret tt;
     query_vectors_response := fun _ _ => Ret no_vectors;
     delete_vectors_response := fun _ _ _ _ => Ret tt |}.

Definition sky : Ingest.FilePath := {| Ingest.fp_str := "data/sky.txt"; Ingest.fp_name := "sky.txt" |}.
Definition torn : Ingest.FilePath := {| Ingest.fp_str := "data/torn.txt"; Ingest.fp_name := "torn.txt" |}.

(** A file system with a directory "data" holding [sky.txt], which splits
    into three chunks, and [torn.txt], which cannot be read; and an empty
    directory "empty". *)
Definition disk : Ingest.Files :=
  {| Ingest.dir_exists := fun p => String.eqb p "data" || String.eqb p "empty";
     Ingest.dir_str := fun p => p;
     Ingest.rglob_txt := fun p => if String.eqb p "data" then [sky; torn] else [];
     Ingest.loader_load := fun fp =>
       if String.eqb (Ingest.fp_name fp) "sky.txt"
       then Ret ["The sky is blue. bad Grass is green."%string]
       else Raise (OtherError "UnicodeDecodeError");
     Ingest.split_documents := fun _ =>
       Ret ["The sky is blue."%string; "bad"%string; "Grass is green."%string];
     Ingest.md5_hexdigest := fun s => s |}.

Definition ingester : Ingest.DocumentIngester := Ingest.init settings.

End Doubles.

(** * Proofs *)

(** ** Binary64: [1 - d / 2] stays in the unit interval *)

Module Binary64Facts.

Import Binary64.

Lemma shr_1_below mrs B : shr_below mrs (2 * B) -> shr_below (shr_1 mrs) B.
Proof.
  destruct mrs as [m r s]. unfold shr_below. cbn [shr_m shr_r shr_s]. intros [H0 H1].
  destruct m as [|p|p]; [ | destruct p as [p|p|] | lia ];
    destruct r, s; cbn [shr_1 shr_m shr_r shr_s orb] in *;
    try rewrite (Pos2Z.inj_xI p) in H1; try rewrite (Pos2Z.inj_xO p) in H1; lia.
Qed.

Lemma pow2_xO n : 2 ^ Zpos n~0 = 2 ^ Zpos n * 2 ^ Zpos n.
Proof.
  rewrite (Pos2Z.inj_xO n). replace (2 * Zpos n) with (Zpos n + Zpos n) by lia.
  apply Z.pow_add_r; lia.
Qed.

Lemma pow2_xI n : 2 ^ Zpos n~1 = 2 * (2 ^ Zpos n * 2 ^ Zpos n).
Proof.
  rewrite (Pos2Z.inj_xI n). replace (2 * Zpos n + 1) with (Zpos n + Zpos n + 1) by lia.
  rewrite !Z.pow_add_r, Z.pow_1_r by lia. ring.
Qed.

Lemma iter_shr_below n : forall mrs B,
  shr_below mrs (B * 2 ^ Zpos n) -> shr_below (iter_pos shr_1 n mrs) B.
Proof.
  induction n as [n IH|n IH|]; intros mrs B H; simpl.
  - apply IH, IH, shr_1_below. rewrite pow2_xI in H.
    replace (2 * (B * 2 ^ Zpos n * 2 ^ Zpos n)) with (B * (2 * (2 ^ Zpos n * 2 ^ Zpos n))) by ring.
    exact H.
  - apply IH, IH. rewrite pow2_xO in H.
    replace (B * 2 ^ Zpos n * 2 ^ Zpos n) with (B * (2 ^ Zpos n * 2 ^ Zpos n)) by ring.
    exact H.
  - apply shr_1_below. rewrite Z.pow_1_r in H. replace (2 * B) with (B * 2) by ring. exact H.
Qed.

Lemma shr_record_of_loc_below m l B :
  0 <= m -> m + loc_excess l <= B -> shr_below (shr_record_of_loc m l) B.
Proof.
  intros H0 H1. unfold shr_below. destruct l as [|[]]; simpl in *; lia.
Qed.

Lemma round_nearest_even_below mrs B :
  shr_below mrs B ->
  0 <= round_nearest_even (shr_m mrs) (loc_of_shr_record mrs) <= B.
Proof.
  destruct mrs as [m r s]. unfold shr_below. simpl. intros [H0 H1].
  destruct r, s; simpl in *; try destruct (Z.even m); lia.
Qed.

Lemma digits2_pos_size p : digits2_pos p = Pos.size p.
Proof. induction p; simpl; congruence. Qed.

Lemma digits2_upper p : Zpos p < 2 ^ Zpos (digits2_pos p).
Proof.
  rewrite digits2_pos_size. pose proof (Pos.size_gt p) as H.
  apply Pos2Z.pos_lt_pos in H. rewrite Pos2Z.inj_pow in H. exact H.
Qed.

Lemma digits2_lower p : 2 ^ (Zpos (digits2_pos p) - 1) <= Zpos p.
Proof.
  rewrite digits2_pos_size. pose proof (Pos.size_le p) as H.
  apply Pos2Z.pos_le_pos in H. rewrite Pos2Z.inj_pow in H. rewrite (Pos2Z.inj_xO p) in H.
  assert (E : 2 ^ Zpos (Pos.size p) = 2 * 2 ^ (Zpos (Pos.size p) - 1)).
  { rewrite <- Z.pow_succ_r by lia. f_equal. lia. }
  lia.
Qed.

(** If [m <= 2^k] then [m] has at most [k + 1] binary digits. *)
Lemma Zdigits2_le_pow m k : 0 <= k -> 0 <= m <= 2 ^ k -> Zdigits2 m <= k + 1.
Proof.
  intros Hk [H0 H1]. destruct m as [|p|p]; simpl; try lia.
  pose proof (digits2_lower p) as HL.
  destruct (Z_le_gt_dec (Zpos (digits2_pos p)) (k + 1)) as [|Hgt]; [assumption|].
  exfalso.
  assert (2 ^ (k + 1) <= 2 ^ (Zpos (digits2_pos p) - 1)) by (apply Z.pow_le_mono_r; lia).
  rewrite Z.pow_add_r, Z.pow_1_r in H by lia.
  pose proof (Z.pow_pos_nonneg 2 k ltac:(lia) Hk). lia.
Qed.

Lemma fexp_nonpos x : x <= 53 -> fexp prec emax x <= 0.
Proof. unfold fexp, SpecFloat.emin, prec, emax. lia. Qed.

(** Shifting to the working exponent keeps a value at most one at most one. *)
Lemma shr_fexp_below m e l :
  e <= 0 -> 0 <= m -> m + loc_excess l <= 2 ^ (- e) ->
  snd (shr_fexp prec emax m e l) <= 0 /\
  shr_below (fst (shr_fexp prec emax m e l)) (2 ^ (- snd (shr_fexp prec emax m e l))).
Proof.
  intros He Hm Hle.
  assert (Hd : Zdigits2 m + e <= 53).
  { assert (Zdigits2 m <= - e + 1).
    { apply Zdigits2_le_pow; [lia|]. destruct l; simpl in Hle; lia. }
    lia. }
  apply fexp_nonpos in Hd.
  unfold shr_fexp, shr.
  destruct (fexp prec emax (Zdigits2 m + e) - e) as [|n|n] eqn:En; simpl.
  - split; [assumption|]. now apply shr_record_of_loc_below.
  - split; [lia|]. apply iter_shr_below.
    rewrite <- Z.pow_add_r by lia.
    replace (- (e + Zpos n) + Zpos n) with (- e) by lia.
    now apply shr_record_of_loc_below.
  - split; [assumption|]. now apply shr_record_of_loc_below.
Qed.

Lemma binary_round_aux_at_most_one m e l :
  e <= 0 -> 0 <= m -> m + loc_excess l <= 2 ^ (- e) ->
  at_most_one (binary_round_aux prec emax false m e l).
Proof.
  intros He Hm Hle. unfold binary_round_aux.
  destruct (shr_fexp_below m e l He Hm Hle) as [He1 H1].
  destruct (shr_fexp prec emax m e l) as [mrs1 e1]. cbn [fst snd] in He1, H1.
  apply round_nearest_even_below in H1.
  set (m1 := round_nearest_even (shr_m mrs1) (loc_of_shr_record mrs1)) in *.
  destruct (shr_fexp_below m1 e1 loc_Exact He1) as [He2 H2];
    [lia | cbn [loc_excess]; lia |].
  destruct (shr_fexp prec emax m1 e1 loc_Exact) as [mrs2 e2]. cbn [fst snd] in He2, H2.
  unfold shr_below in H2. destruct H2 as [H20 H21].
  destruct (shr_m mrs2) as [|p|p] eqn:Em; [exact I | | lia].
  destruct (Z.leb_spec e2 (emax - prec)) as [_|Hgt]; [| unfold emax, prec in Hgt; lia].
  cbn [at_most_one]. split; [assumption|]. destruct (shr_r mrs2 || shr_s mrs2); lia.
Qed.

Lemma Prim2SF_zero : Prim2SF 0%float = S754_zero false.
Proof. vm_compute. reflexivity. Qed.

Lemma Prim2SF_one : Prim2SF 1%float = SF_one.
Proof. vm_compute. reflexivity. Qed.

Lemma Prim2SF_two : Prim2SF 2%float = SF_two.
Proof. vm_compute. reflexivity. Qed.

Lemma pow2_52 : 2 ^ 52 = 4503599627370496.
Proof. reflexivity. Qed.

Lemma canonical_digits m e :
  bounded prec emax m e = true ->
  Zpos (digits2_pos m) <= 53 /\ (- 1074 < e -> Zpos (digits2_pos m) = 53).
Proof.
  unfold bounded, canonical_mantissa, fexp, SpecFloat.emin, prec, emax.
  intros H. apply andb_prop in H. destruct H as [H _]. apply Z.eqb_eq in H. lia.
Qed.

(** A valid float between [0.0] and [2.0] is a zero or [m * 2^e <= 2]. *)
Lemma between_zero_two x :
  valid_binary x = true ->
  SFleb (S754_zero false) x = true -> SFleb x SF_two = true ->
  match x with
  | S754_zero _ => True
  | S754_finite false m e => e <= -51 /\ Zpos m <= 2 ^ (1 - e)
  | _ => False
  end.
Proof.
  intros Hv H0 H2. destruct x as [s|s| |s m e]; [trivial | | discriminate | ].
  - destruct s; discriminate.
  - destruct s; [discriminate|]. clear H0.
    cbn [valid_binary] in Hv. apply canonical_digits in Hv. destruct Hv as [Hd _].
    pose proof (digits2_upper m) as Hu.
    unfold SFleb, SF_two, SFcompare in H2.
    destruct (Z.compare_spec e (-51)) as [E|E|E]; [ | | discriminate].
    + subst e. split; [lia|].
      rewrite Pos.compare_cont_spec in H2. cbn [Pos.switch_Eq] in H2.
      change (2 ^ (1 - -51)) with 4503599627370496.
      destruct (Pos.compare_spec m 4503599627370496) as [E|E|E]; [ | | discriminate].
      * subst m. lia.
      * apply Pos2Z.pos_lt_pos in E. lia.
    + split; [lia|].
      assert (2 ^ Zpos (digits2_pos m) <= 2 ^ (1 - e)) by (apply Z.pow_le_mono_r; lia).
      lia.
Qed.

Lemma at_most_one_leb x :
  valid_binary x = true -> at_most_one x ->
  SFleb (S754_zero false) x = true /\ SFleb x SF_one = true.
Proof.
  intros Hv H. destruct x as [s|s| |s m e]; cbn [at_most_one] in H; try contradiction.
  - split; reflexivity.
  - destruct s; [contradiction|]. destruct H as [He Hm]. split; [reflexivity|].
    cbn [valid_binary] in Hv. apply canonical_digits in Hv. destruct Hv as [_ Hd].
    pose proof (digits2_lower m) as Hl.
    unfold SFleb, SF_one, SFcompare.
    destruct (Z.compare_spec e (-52)) as [E|E|E]; [ | reflexivity | ].
    + subst e. change (2 ^ (- -52)) with 4503599627370496 in Hm.
      rewrite Pos.compare_cont_spec. cbn [Pos.switch_Eq].
      destruct (Pos.compare_spec m 4503599627370496) as [E|E|E]; try reflexivity.
      apply Pos2Z.pos_lt_pos in E. lia.
    + exfalso. rewrite Hd in Hl by lia. change (2 ^ (53 - 1)) with (2 ^ 52) in Hl.
      assert (2 ^ (- e) < 2 ^ 52) by (apply Z.pow_lt_mono_r; lia). lia.
Qed.

Lemma new_location_two_pow r :
  loc_excess (new_location 4503599627370496 r) = if r =? 0 then 0 else 1.
Proof.
  unfold new_location. change (Z.even 4503599627370496) with true. cbv iota.
  unfold new_location_even. destruct (r =? 0); reflexivity.
Qed.

Lemma div_two_at_most_one m e :
  e <= -51 -> Zpos m <= 2 ^ (1 - e) ->
  at_most_one (SFdiv prec emax (S754_finite false m e) SF_two).
Proof.
  intros He Hm. unfold SFdiv, SF_two, SFdiv_core_binary.
  change (Zdigits2 4503599627370496) with 53.
  set (e' := Z.min (fexp prec emax (Zdigits2 (Zpos m) + e - (53 + -51))) (e - -51)).
  assert (He' : e' <= e + 51) by (unfold e'; lia).
  set (s := e - -51 - e').
  assert (Hs : 0 <= s) by (unfold s; lia).
  set (m' := match s with Zpos _ => Z.shiftl (Zpos m) s | 0 => Zpos m | Zneg _ => 0 end).
  assert (Hm' : m' = Zpos m * 2 ^ s).
  { unfold m'. destruct s as [|p|p] eqn:Es; [rewrite Z.pow_0_r; lia | | lia].
    apply Z.shiftl_mul_pow2. lia. }
  pose proof (Z_div_mod m' 4503599627370496 ltac:(lia)) as Hdiv.
  destruct (Z.div_eucl m' 4503599627370496) as [q r]. destruct Hdiv as [Hq Hr].
  cbn [xorb].
  assert (Hb : m' <= 4503599627370496 * 2 ^ (- e')).
  { rewrite Hm', <- pow2_52, <- Z.pow_add_r by lia.
    replace (52 + - e') with (1 - e + s) by (unfold s; lia).
    rewrite Z.pow_add_r by lia.
    apply Z.mul_le_mono_nonneg_r; [apply Z.pow_nonneg; lia | assumption]. }
  assert (Hm0 : 0 <= m') by (rewrite Hm'; apply Z.mul_nonneg_nonneg; [lia | apply Z.pow_nonneg; lia]).
  apply binary_round_aux_at_most_one; [lia | nia | ].
  rewrite new_location_two_pow. destruct (Z.eqb_spec r 0); nia.
Qed.

Lemma iter_xO_pow m d : Zpos (Pos.iter xO m d) = Zpos m * 2 ^ Zpos d.
Proof.
  induction d as [|d IH] using Pos.peano_ind.
  - cbn [Pos.iter]. rewrite Z.pow_1_r. lia.
  - rewrite Pos.iter_succ, (Pos2Z.inj_xO (Pos.iter xO m d)), IH, Pos2Z.inj_succ.
    rewrite Z.pow_succ_r by lia. ring.
Qed.

Lemma shl_align_spec m e e' :
  snd (shl_align m e e') = Z.min e e' /\
  Zpos (fst (shl_align m e e')) = Zpos m * 2 ^ (e - Z.min e e').
Proof.
  unfold shl_align. destruct (e' - e) as [|d|d] eqn:E; cbn [fst snd].
  - replace (Z.min e e') with e by lia. rewrite Z.sub_diag, Z.pow_0_r. lia.
  - replace (Z.min e e') with e by lia. rewrite Z.sub_diag, Z.pow_0_r. lia.
  - replace (Z.min e e') with e' by lia. split; [reflexivity|].
    rewrite iter_xO_pow. f_equal. f_equal. lia.
Qed.

Lemma binary_normalize_at_most_one M e :
  e <= 0 -> 0 <= M <= 2 ^ (- e) ->
  at_most_one (binary_normalize prec emax M e false).
Proof.
  intros He [H0 H1]. destruct M as [|p|p]; [exact I | | lia].
  cbn [binary_normalize]. unfold binary_round.
  destruct (shl_align_spec p e (fexp prec emax (Zpos (digits2_pos p) + e))) as [Hs Hf].
  destruct (shl_align p e (fexp prec emax (Zpos (digits2_pos p) + e))) as [mz ez].
  cbn [fst snd] in Hs, Hf. rewrite <- Hs in Hf.
  apply binary_round_aux_at_most_one; [lia | lia | ].
  cbn [loc_excess]. rewrite Z.add_0_r, Hf.
  replace (- ez) with (- e + (e - ez)) by lia.
  rewrite Z.pow_add_r by lia.
  apply Z.mul_le_mono_nonneg_r; [apply Z.pow_nonneg; lia | assumption].
Qed.

Lemma sub_one_at_most_one x :
  at_most_one x -> at_most_one (SFsub prec emax SF_one x).
Proof.
  destruct x as [s|s| |s m e]; cbn [at_most_one]; try contradiction.
  - intros _. cbn [SFsub SF_one]. split; [lia|]. change (2 ^ (- -52)) with 4503599627370496. lia.
  - destruct s; [contradiction|]. intros [He Hm].
    unfold SF_one. cbn [SFsub cond_Zopp].
    set (ez := Z.min (-52) e).
    destruct (shl_align_spec 4503599627370496 (-52) ez) as [_ H1].
    destruct (shl_align_spec m e ez) as [_ H2].
    rewrite H1, H2.
    replace (Z.min (-52) ez) with ez by (unfold ez; lia).
    replace (Z.min e ez) with ez by (unfold ez; lia).
    assert (E1 : 4503599627370496 * 2 ^ (-52 - ez) = 2 ^ (- ez)).
    { rewrite <- pow2_52, <- Z.pow_add_r by (unfold ez; lia). f_equal. lia. }
    rewrite E1.
    assert (E2 : Zpos m * 2 ^ (e - ez) <= 2 ^ (- ez)).
    { replace (- ez) with (- e + (e - ez)) by lia.
      rewrite Z.pow_add_r by (unfold ez; lia).
      apply Z.mul_le_mono_nonneg_r; [apply Z.pow_nonneg; lia | assumption]. }
    assert (E3 : 0 < Zpos m * 2 ^ (e - ez)).
    { apply Z.mul_pos_pos; [lia | apply Z.pow_pos_nonneg; unfold ez; lia]. }
    apply binary_normalize_at_most_one; [unfold ez; lia | lia].
Qed.

(** For a binary64 [d] with [0.0 <= d <= 2.0], [1 - d / 2] lies in [[0.0, 1.0]]. *)
Lemma one_minus_half_range (d : float) :
  (0 <=? d)%float = true -> (d <=? 2)%float = true ->
  (0 <=? 1 - d / 2)%float = true /\ (1 - d / 2 <=? 1)%float = true.
Proof.
  intros H0 H2. rewrite leb_spec, Prim2SF_zero in H0. rewrite leb_spec, Prim2SF_two in H2.
  rewrite !leb_spec, Prim2SF_zero, Prim2SF_one.
  apply at_most_one_leb; [apply Prim2SF_valid|].
  rewrite sub_spec, div_spec, Prim2SF_one, Prim2SF_two.
  apply sub_one_at_most_one.
  pose proof (between_zero_two _ (Prim2SF_valid d) H0 H2) as Hb.
  destruct (Prim2SF d) as [s|s| |s m e]; try contradiction.
  - exact I.
  - destruct s; [contradiction|]. destruct Hb. now apply div_two_at_most_one.
Qed.

Lemma SFltb_SFleb_false x y : SFltb x y = true -> SFleb y x = false.
Proof.
  unfold SFltb, SFleb.
  destruct x as [sx|sx| |sx mx ex], y as [sy|sy| |sy my ey]; cbn [SFcompare];
    try discriminate; try (destruct sx; discriminate); try (destruct sy; discriminate);
    try (destruct sx, sy; (discriminate || reflexivity)).
  destruct sx, sy; try discriminate; try reflexivity;
    rewrite (Z.compare_antisym ex ey), !Pos.compare_cont_spec, (Pos.compare_antisym mx my);
    cbn [Pos.switch_Eq];
    destruct (ex ?= ey); cbn [CompOpp]; try discriminate; try reflexivity;
    destruct (mx ?= my)%positive; cbn [CompOpp]; try discriminate; reflexivity.
Qed.

Lemma ltb_leb_false (x y : float) : (x <? y)%float = true -> (y <=? x)%float = false.
Proof. rewrite ltb_spec, leb_spec. apply SFltb_SFleb_false. Qed.

End Binary64Facts.

(** ** Traces *)

Lemma new_events_app (tr ev : trace) : new_events tr (tr ++ ev) = ev.
Proof.
  unfold new_events. induction tr as [|e tr IH]; [reflexivity | exact IH].
Qed.

Lemma put_batches_app (a b : trace) : put_batches (a ++ b) = put_batches a ++ put_batches b.
Proof.
  induction a as [|e a IH]; [reflexivity|]. destruct e; cbn; rewrite ?IH; reflexivity.
Qed.

Lemma sleeps_app (a b : trace) : sleeps (a ++ b) = sleeps a ++ sleeps b.
Proof.
  induction a as [|e a IH]; [reflexivity|]. destruct e; cbn; rewrite ?IH; reflexivity.
Qed.

Lemma model_calls_app (a b : trace) : model_calls (a ++ b) = model_calls a ++ model_calls b.
Proof.
  induction a as [|e a IH]; [reflexivity|]. destruct e; cbn; rewrite ?IH; reflexivity.
Qed.

Lemma delete_batches_app (a b : trace) :
  delete_batches (a ++ b) = delete_batches a ++ delete_batches b.
Proof.
  induction a as [|e a IH]; [reflexivity|]. destruct e; cbn; rewrite ?IH; reflexivity.
Qed.

Lemma query_calls_app (a b : trace) : query_calls (a ++ b) = query_calls a ++ query_calls b.
Proof.
  induction a as [|e a IH]; [reflexivity|]. destruct e; cbn; rewrite ?IH; reflexivity.
Qed.

(** ** Vector Index Gateway *)

Module GatewayFacts.

Import S3VectorClient.

Lemma fold_add_match thr vs : forall acc,
  fold_left (add_match thr) vs acc
  = acc ++ map match_of (filter (fun v => (thr <=? similarity_score v)%float) vs).
Proof.
  induction vs as [|v vs IH]; intros acc; cbn [fold_left filter map].
  - now rewrite app_nil_r.
  - rewrite IH. unfold add_match. destruct (thr <=? similarity_score v)%float.
    + cbn [map]. now rewrite <- app_assoc.
    + reflexivity.
Qed.

(** What [query_vectors] does once the index has answered. *)
Lemma query_vectors_answered env self emb k f thr tr response :
  query_vectors_response env (tr ++ [EvTime (clock env tr)]) (query_params self emb k f)
    = Ret response ->
  exists tr',
    query_vectors env self emb k f thr tr
    = (Ret (map match_of
              (filter (fun v => (thr <=? similarity_score v)%float) (response_vectors response))),
       tr').
Proof.
  intros H. unfold query_vectors, bind, try_except_ClientError, s3vectors_query_vectors,
    time_time, ret. rewrite H. rewrite fold_add_match. cbn [app]. eexists. reflexivity.
Qed.

(** C1: once the index has answered, [query_vectors] returns exactly the
    response vectors whose similarity reaches the threshold, in response
    order; so every returned match has [score >= threshold] (and not
    [score < threshold]), and a response vector whose similarity is below
    the threshold is not among the returned matches.  This holds for every
    threshold, in particular for those in [[0, 1]]. *)
Theorem query_vectors_threshold env self emb k f thr tr response :
  query_vectors_response env (tr ++ [EvTime (clock env tr)]) (query_params self emb k f)
    = Ret response ->
  exists matches tr',
    query_vectors env self emb k f thr tr = (Ret matches, tr') /\
    (forall m, In m matches ->
       (thr <=? m_score m)%float = true /\ (m_score m <? thr)%float = false) /\
    (forall v, In v (response_vectors response) ->
       (similarity_score v <? thr)%float = true -> ~ In (match_of v) matches).
Proof.
  intros H. destruct (query_vectors_answered env self emb k f thr tr response H) as [tr' E].
  eexists. exists tr'. split; [exact E|].
  assert (Hin : forall m,
    In m (map match_of
            (filter (fun v => (thr <=? similarity_score v)%float) (response_vectors response))) ->
    (thr <=? m_score m)%float = true).
  { intros m Hm. apply in_map_iff in Hm. destruct Hm as [v [<- Hv]].
    apply filter_In in Hv. exact (proj2 Hv). }
  split.
  - intros m Hm. pose proof (Hin m Hm) as Hge. split; [exact Hge|].
    destruct (m_score m <? thr)%float eqn:Hlt; [|reflexivity].
    apply Binary64Facts.ltb_leb_false in Hlt. congruence.
  - intros v _ Hlt Hm. apply Hin in Hm. cbn [match_of m_score] in Hm.
    apply Binary64Facts.ltb_leb_false in Hlt. congruence.
Qed.

Lemma query_vectors_threshold_witness :
  exists matches tr',
    query_vectors Doubles.happy Doubles.client [0.5%float] 6 None 0.5%float [] = (Ret matches, tr') /\
    (forall m, In m matches ->
       (0.5 <=? m_score m)%float = true /\ (m_score m <? 0.5)%float = false) /\
    (forall v, In v (response_vectors Doubles.three_vectors) ->
       (similarity_score v <? 0.5)%float = true -> ~ In (match_of v) matches).
Proof.
  apply (query_vectors_threshold Doubles.happy Doubles.client [0.5%float] 6 None 0.5%float []
           Doubles.three_vectors).
  reflexivity.
Defined.

(** C2: for a cosine distance [d] with [0.0 <= d <= 2.0] the computed
    similarity [1 - d / 2] satisfies [0.0 <= similarity <= 1.0]; distance
    [0.0] gives exactly [1.0] and distance [2.0] gives exactly [0.0]. *)
Theorem similarity_score_range (vector : ResponseVector) (d : float) :
  rv_distance vector = Some d ->
  (0 <=? d)%float = true -> (d <=? 2)%float = true ->
  ((0 <=? similarity_score vector)%float = true /\
   (similarity_score vector <=? 1)%float = true) /\
  (d = 0%float -> similarity_score vector = 1%float) /\
  (d = 2%float -> similarity_score vector = 0%float).
Proof.
  intros Hd H0 H2. unfold similarity_score. rewrite Hd. split; [|split].
  - now apply Binary64Facts.one_minus_half_range.
  - intros ->. reflexivity.
  - intros ->. reflexivity.
Qed.

Lemma similarity_score_range_witness :
  ((0 <=? similarity_score Doubles.far)%float = true /\
   (similarity_score Doubles.far <=? 1)%float = true) /\
  (1.5%float = 0%float -> similarity_score Doubles.far = 1%float) /\
  (1.5%float = 2%float -> similarity_score Doubles.far = 0%float).
Proof.
  apply (similarity_score_range Doubles.far 1.5%float); reflexivity.
Defined.

(** C10: a response vector without a distance gets distance 0 and score
    exactly [1.0], and for every threshold [<= 1.0] it is among the matches
    [query_vectors] returns. *)
Theorem missing_distance_scores_one env self emb k f thr tr response v :
  query_vectors_response env (tr ++ [EvTime (clock env tr)]) (query_params self emb k f)
    = Ret response ->
  In v (response_vectors response) ->
  rv_distance v = None ->
  (thr <=? 1)%float = true ->
  similarity_score v = 1%float /\
  exists matches tr',
    query_vectors env self emb k f thr tr = (Ret matches, tr') /\
    In (match_of v) matches /\ m_score (match_of v) = 1%float.
Proof.
  intros H Hv Hd Hthr.
  assert (Hs : similarity_score v = 1%float) by (unfold similarity_score; now rewrite Hd).
  split; [exact Hs|].
  destruct (query_vectors_answered env self emb k f thr tr response H) as [tr' E].
  eexists. exists tr'. split; [exact E|]. split; [|exact Hs].
  apply in_map. apply filter_In. split; [exact Hv|]. now rewrite Hs.
Qed.

Lemma missing_distance_scores_one_witness :
  similarity_score Doubles.bare = 1%float /\
  exists matches tr',
    query_vectors Doubles.happy Doubles.client [0.5%float] 6 None 0.5%float [] = (Ret matches, tr') /\
    In (match_of Doubles.bare) matches /\ m_score (match_of Doubles.bare) = 1%float.
Proof.
  apply (missing_distance_scores_one Doubles.happy Doubles.client [0.5%float] 6 None 0.5%float []
           Doubles.three_vectors Doubles.bare).
  - reflexivity.
  - right. right. left. reflexivity.
  - reflexivity.
  - reflexivity.
Defined.

End GatewayFacts.

(** ** Batching *)

Module BatchFacts.

Lemma len_app {A : Type} (a b : list A) : Py.len (a ++ b) = Py.len a + Py.len b.
Proof. unfold Py.len. rewrite length_app. lia. Qed.

Lemma slice_shift {A : Type} (s k : nat) (l : list A) :
  Py.slice (S k * s) s l = Py.slice (k * s) s (skipn s l).
Proof.
  unfold Py.slice. rewrite skipn_skipn. f_equal. f_equal. lia.
Qed.

(** The slices at [0, s, 2s, ...] put back together give a list that is
    covered by them. *)
Lemma concat_slices {A : Type} (s : nat) : forall (n : nat) (l : list A),
  (List.length l <= n * s)%nat ->
  List.concat (map (fun i => Py.slice i s l) (map (fun k => (k * s)%nat) (seq 0 n))) = l.
Proof.
  induction n as [|n IH]; intros l Hl.
  - destruct l; [reflexivity | cbn in Hl; lia].
  - cbn [seq map List.concat]. rewrite <- seq_shift, !map_map.
    rewrite (map_ext _ (fun k => Py.slice (k * s) s (skipn s l)))
      by (intros k; apply slice_shift).
    rewrite <- (map_map (fun k => (k * s)%nat) (fun i => Py.slice i s (skipn s l))).
    rewrite IH by (rewrite length_skipn; lia).
    unfold Py.slice. cbn [skipn Nat.mul]. apply firstn_skipn.
Qed.

Lemma range_step_covers (len s : nat) : (0 < s)%nat -> (len <= (len + s - 1) / s * s)%nat.
Proof.
  intros Hs. pose proof (Nat.div_mod_eq (len + s - 1) s) as E.
  pose proof (Nat.mod_upper_bound (len + s - 1) s ltac:(lia)) as B. nia.
Qed.

Lemma concat_range_step_slices {A : Type} (s : nat) (l : list A) :
  (0 < s)%nat ->
  List.concat (map (fun i => Py.slice i s l) (Py.range_step (List.length l) s)) = l.
Proof.
  intros Hs. unfold Py.range_step. apply concat_slices. now apply range_step_covers.
Qed.

Lemma slices_bounded {A : Type} (s : nat) (l : list A) (starts : list nat) :
  Forall (fun b => (List.length b <= s)%nat) (map (fun i => Py.slice i s l) starts).
Proof.
  apply Forall_forall. intros b Hb. apply in_map_iff in Hb. destruct Hb as [i [<- _]].
  unfold Py.slice. rewrite length_firstn. lia.
Qed.

Lemma slices_lengths {A : Type} (s : nat) (l : list A) (starts : list nat) :
  map (@List.length A) (map (fun i => Py.slice i s l) starts)
  = map (fun i => Nat.min s (List.length l - i)) starts.
Proof.
  rewrite map_map. apply map_ext. intros i. unfold Py.slice.
  now rewrite length_firstn, length_skipn.
Qed.

End BatchFacts.

(** ** Upsert *)

Module UpsertFacts.

Import S3VectorClient.

Lemma put_batch_ok env self script batch a rest total tr :
  put_scripted env script ->
  script (List.length (put_batches tr)) = Ret tt ->
  put_batch env self batch (a :: rest) total tr
  = (Ret (total + Py.len batch),
     tr ++ [EvTime (clock env tr); EvPutVectors (bucket_name self) (index_name self) batch]).
Proof.
  intros Hs H. cbn [put_batch].
  unfold bind, try_except_ClientError, s3vectors_put_vectors, time_time, ret.
  rewrite Hs, put_batches_app, length_app, Nat.add_0_r, H, <- app_assoc. reflexivity.
Qed.

Lemma put_batch_retry env self script batch a rest total tr :
  put_scripted env script ->
  script (List.length (put_batches tr)) = Raise (ClientError "TooManyRequestsException") ->
  (a <? max_retries self - 1) = true ->
  put_batch env self batch (a :: rest) total tr
  = put_batch env self batch rest total
      (tr ++ [EvTime (clock env tr); EvPutVectors (bucket_name self) (index_name self) batch;
              EvSleep (retry_delay self * Py.float_of_int (2 ^ a))%float]).
Proof.
  intros Hs H Ha. cbn [put_batch].
  unfold bind at 1. unfold try_except_ClientError, bind at 1 2.
  unfold s3vectors_put_vectors, time_time, ret.
  rewrite Hs, put_batches_app, length_app, Nat.add_0_r, H.
  cbn [String.eqb Ascii.eqb Bool.eqb andb]. rewrite Ha.
  unfold bind, time_sleep, ret. rewrite <- !app_assoc. reflexivity.
Qed.


Lemma put_batch_other_error env self script batch a rest total tr e :
  put_scripted env script ->
  script (List.length (put_batches tr)) = Raise e ->
  e <> ClientError "TooManyRequestsException" ->
  put_batch env self batch (a :: rest) total tr
  = (Raise e,
     tr ++ [EvTime (clock env tr); EvPutVectors (bucket_name self) (index_name self) batch]).
Proof.
  intros Hs H Hne. cbn [put_batch].
  unfold bind, try_except_ClientError, s3vectors_put_vectors, time_time, ret.
  rewrite Hs, put_batches_app, length_app, Nat.add_0_r, H, <- app_assoc.
  destruct e as [code| | | | | |]; try reflexivity.
  destruct (String.eqb_spec code "TooManyRequestsException") as [->|_]; [|reflexivity].
  now contradiction Hne.
Qed.

(** The batch loop when every remaining put call succeeds. *)
Lemma loop_all_ok env self script fv bs a attempts :
  put_scripted env script ->
  Py.range (max_retries self) = a :: attempts ->
  forall starts total tr,
    (forall n, (List.length (put_batches tr) <= n)%nat -> script n = Ret tt) ->
    exists ev,
      put_batches_loop env self fv bs starts total tr
      = (Ret (total + Py.len (List.concat (map (fun i => Py.slice i bs fv) starts))), tr ++ ev) /\
      put_batches ev = map (fun i => Py.slice i bs fv) starts /\
      sleeps ev = [].
Proof.
  intros Hs Hr. induction starts as [|i starts IH]; intros total tr Hok.
  - exists []. cbn. unfold ret, Py.len. cbn. rewrite Z.add_0_r, app_nil_r. auto.
  - cbn [put_batches_loop]. unfold bind. rewrite Hr.
    rewrite (put_batch_ok env self script _ a attempts total tr Hs) by (apply Hok; lia).
    set (tr1 := tr ++ _).
    destruct (IH (total + Py.len (Py.slice i bs fv)) tr1) as [ev [E [Hp Hsl]]].
    { intros n Hn. apply Hok. unfold tr1 in Hn. rewrite put_batches_app, length_app in Hn. lia. }
    eexists. rewrite E. unfold tr1. rewrite <- app_assoc. split; [|split].
    + cbn [map List.concat]. rewrite BatchFacts.len_app, Z.add_assoc. reflexivity.
    + rewrite put_batches_app. cbn. now rewrite Hp.
    + rewrite sleeps_app. cbn. exact Hsl.
Qed.

Lemma range_init r b i : Py.range (max_retries (init r b i)) = [0; 1; 2].
Proof. reflexivity. Qed.

Lemma len_map {A B : Type} (f : A -> B) (l : list A) : Py.len (map f l) = Py.len l.
Proof. unfold Py.len. now rewrite length_map. Qed.

(** C5: when every put call succeeds, [upsert_vectors] sends the formatted
    records in successive batches of at most 500 (the batches put back
    together are the formatted input, (n + 499) / 500 calls in all), never
    sleeps, and returns the number of input records; 1200 records make
    exactly three put calls of 500, 500 and 200 vectors. *)
Theorem upsert_batches env region bucket index vectors tr :
  (forall tr' b i batch, put_vectors_response env tr' b i batch = Ret tt) ->
  exists tr',
    upsert_vectors env (init region bucket index) vectors tr = (Ret (Py.len vectors), tr') /\
    List.concat (put_batches (new_events tr tr')) = map format_vector vectors /\
    Forall (fun b => (List.length b <= 500)%nat) (put_batches (new_events tr tr')) /\
    List.length (put_batches (new_events tr tr')) = ((List.length vectors + 499) / 500)%nat /\
    sleeps (new_events tr tr') = [] /\
    (List.length vectors = 1200%nat ->
     map (@List.length FormattedVector) (put_batches (new_events tr tr')) = [500; 500; 200]%nat).
Proof.
  intros Hok.
  assert (Hs : put_scripted env (fun _ => Ret tt)) by (intros ? ? ? ?; apply Hok).
  unfold upsert_vectors.
  destruct (loop_all_ok env (init region bucket index) (fun _ => Ret tt)
              (map format_vector vectors) 500%nat 0 [1; 2] Hs (range_init _ _ _)
              (Py.range_step (List.length (map format_vector vectors)) 500) 0 tr)
    as [ev [E [Hp Hsl]]]; [reflexivity|].
  exists (tr ++ ev). rewrite new_events_app, Hp.
  rewrite BatchFacts.concat_range_step_slices in * by lia.
  rewrite len_map in E. split; [exact E|]. split; [reflexivity|].
  split; [apply BatchFacts.slices_bounded|]. split; [|split; [exact Hsl|]].
  - unfold Py.range_step. rewrite !length_map, length_seq. f_equal. lia.
  - intros Hn. rewrite BatchFacts.slices_lengths, length_map, Hn. reflexivity.
Qed.

Lemma upsert_batches_witness :
  exists tr',
    upsert_vectors Doubles.happy (init "us-east-1" "vectors" "rag-index") (Doubles.records 1200) []
      = (Ret (Py.len (Doubles.records 1200)), tr') /\
    List.concat (put_batches (new_events [] tr')) = map format_vector (Doubles.records 1200) /\
    Forall (fun b => (List.length b <= 500)%nat) (put_batches (new_events [] tr')) /\
    List.length (put_batches (new_events [] tr'))
      = ((List.length (Doubles.records 1200) + 499) / 500)%nat /\
    sleeps (new_events [] tr') = [] /\
    (List.length (Doubles.records 1200) = 1200%nat ->
     map (@List.length FormattedVector) (put_batches (new_events [] tr')) = [500; 500; 200]%nat).
Proof.
  apply (upsert_batches Doubles.happy "us-east-1" "vectors" "rag-index" (Doubles.records 1200) []).
  intros tr' b i batch. reflexivity.
Defined.

(** The batch loop over two runs of batches, one after the other. *)
Lemma put_loop_app env self fv bs : forall s1 s2 total tr,
  put_batches_loop env self fv bs (s1 ++ s2) total tr
  = match put_batches_loop env self fv bs s1 total tr with
    | (Ret t, tr1) => put_batches_loop env self fv bs s2 t tr1
    | (Raise e, tr1) => (Raise e, tr1)
    end.
Proof.
  induction s1 as [|i s1 IH]; intros s2 total tr; [reflexivity|].
  cbn [app put_batches_loop]. unfold bind.
  destruct (put_batch env self _ _ total tr) as [[t|e] tr1]; [apply IH | reflexivity].
Qed.

(** The batch loop over batches whose put calls all succeed. *)
Lemma put_loop_ok_bounded env self script fv bs a attempts :
  put_scripted env script ->
  Py.range (max_retries self) = a :: attempts ->
  forall starts total tr,
    (forall n, (List.length (put_batches tr) <= n
                < List.length (put_batches tr) + List.length starts)%nat ->
               script n = Ret tt) ->
    exists ev,
      put_batches_loop env self fv bs starts total tr
      = (Ret (total + Py.len (List.concat (map (fun i => Py.slice i bs fv) starts))), tr ++ ev) /\
      put_batches ev = map (fun i => Py.slice i bs fv) starts /\
      sleeps ev = [].
Proof.
  intros Hs Hr. induction starts as [|i starts IH]; intros total tr Hok.
  - exists []. cbn. unfold ret, Py.len. cbn. rewrite Z.add_0_r, app_nil_r. auto.
  - cbn [put_batches_loop]. unfold bind. rewrite Hr.
    rewrite (put_batch_ok env self script _ a attempts total tr Hs)
      by (apply Hok; cbn [List.length]; lia).
    set (tr1 := tr ++ _).
    destruct (IH (total + Py.len (Py.slice i bs fv)) tr1) as [ev [E [Hp Hsl]]].
    { intros n Hn. apply Hok. unfold tr1 in Hn.
      rewrite put_batches_app, length_app in Hn. cbn [List.length put_batches] in *. lia. }
    eexists. rewrite E. unfold tr1. rewrite <- app_assoc. split; [|split].
    + cbn [map List.concat]. rewrite BatchFacts.len_app, Z.add_assoc. reflexivity.
    + rewrite put_batches_app. cbn. now rewrite Hp.
    + rewrite sleeps_app. cbn. exact Hsl.
Qed.





End UpsertFacts.

(** ** Strings *)

Module StringFacts.

Lemma length_app (a b : string) :
  String.length (a ++ b) = (String.length a + String.length b)%nat.
Proof. induction a as [|c a IH]; cbn; [reflexivity | now rewrite IH]. Qed.

Lemma length_prefix (n : nat) : forall s,
  String.length (Py.str_prefix n s) = Nat.min n (String.length s).
Proof.
  unfold Py.str_prefix. induction n as [|n IH]; intros [|c s]; cbn; try reflexivity.
  now rewrite IH.
Qed.

Lemma prefix_is_prefix (n : nat) : forall s, String.prefix (Py.str_prefix n s) s = true.
Proof.
  unfold Py.str_prefix. induction n as [|n IH]; intros [|c s]; cbn; try reflexivity.
  destruct (ascii_dec c c) as [_|N]; [apply IH | now contradiction N].
Qed.

End StringFacts.

(** ** Rounding *)

Module RoundFacts.

(** [div_half_even] gives a nearest integer, the even one at a tie. *)
Lemma div_half_even_nearest (a b : Z) :
  0 < b ->
  2 * Z.abs (a - Py.div_half_even a b * b) <= b /\
  (2 * Z.abs (a - Py.div_half_even a b * b) = b -> Z.even (Py.div_half_even a b) = true).
Proof.
  intros Hb. unfold Py.div_half_even.
  pose proof (Z.div_mod a b ltac:(lia)) as Hd.
  pose proof (Z.mod_pos_bound a b Hb) as Hr.
  set (q := a / b) in *. set (r := a mod b) in *.
  assert (E1 : a - q * b = r) by lia.
  assert (E2 : a - (q + 1) * b = r - b) by lia.
  destruct (Z.compare_spec (2 * r) b) as [H|H|H].
  - destruct (Z.even q) eqn:Ev.
    + rewrite E1. split; [lia | intros _; exact Ev].
    + rewrite E2. split; [lia|]. intros _.
      replace (q + 1) with (Z.succ q) by lia.
      rewrite Z.even_succ, <- Z.negb_even, Ev. reflexivity.
  - rewrite E1. split; lia.
  - rewrite E2. split; lia.
Qed.

Lemma div_half_even_nonneg (a b : Z) : 0 <= a -> 0 < b -> 0 <= Py.div_half_even a b.
Proof.
  intros Ha Hb. unfold Py.div_half_even.
  pose proof (Z.div_pos a b Ha Hb).
  destruct (2 * (a mod b) ?= b); [destruct (Z.even (a / b))| |]; lia.
Qed.

(** There is one rounding only. *)
Lemma nearest_scaled_unique m e ndigits n1 n2 :
  Py.nearest_scaled m e ndigits n1 -> Py.nearest_scaled m e ndigits n2 -> n1 = n2.
Proof.
  unfold Py.nearest_scaled.
  set (a := Zpos m * 10 ^ ndigits * 2 ^ Z.max e 0).
  set (b := 2 ^ Z.max (- e) 0).
  assert (Hb : 0 < b) by (apply Z.pow_pos_nonneg; lia).
  clearbody a b. intros [L1 T1] [L2 T2].
  assert (Hd : n1 = n2 \/ n2 = n1 + 1 \/ n1 = n2 + 1) by nia.
  destruct Hd as [H|[H|H]]; [exact H| |]; exfalso; subst.
  - assert (E1 : 2 * Z.abs (a - n1 * b) = b) by nia.
    assert (E2 : 2 * Z.abs (a - (n1 + 1) * b) = b) by nia.
    specialize (T1 E1). specialize (T2 E2).
    replace (n1 + 1) with (Z.succ n1) in T2 by lia.
    rewrite Z.even_succ, <- Z.negb_even, T1 in T2. discriminate.
  - assert (E2 : 2 * Z.abs (a - n2 * b) = b) by nia.
    assert (E1 : 2 * Z.abs (a - (n2 + 1) * b) = b) by nia.
    specialize (T1 E1). specialize (T2 E2).
    replace (n2 + 1) with (Z.succ n2) in T1 by lia.
    rewrite Z.even_succ, <- Z.negb_even, T2 in T1. discriminate.
Qed.

(** The digits CPython prints are the rounding. *)
Lemma scaled_half_even_nearest m e ndigits :
  0 <= ndigits ->
  0 <= Py.scaled_half_even m e ndigits /\
  Py.nearest_scaled m e ndigits (Py.scaled_half_even m e ndigits).
Proof.
  intros Hn. unfold Py.scaled_half_even, Py.nearest_scaled.
  assert (Hp : 0 < 10 ^ ndigits) by (apply Z.pow_pos_nonneg; lia).
  destruct (Z.leb_spec 0 e) as [He|He].
  - rewrite (Z.max_l e 0), (Z.max_r (- e) 0) by lia. rewrite Z.pow_0_r.
    assert (H2 : 0 < 2 ^ e) by (apply Z.pow_pos_nonneg; lia).
    split; [nia|].
    replace (Z.pos m * 10 ^ ndigits * 2 ^ e - Z.pos m * 2 ^ e * 10 ^ ndigits * 1) with 0 by ring.
    cbn. split; [lia | intros H; discriminate].
  - rewrite (Z.max_r e 0), (Z.max_l (- e) 0) by lia. rewrite Z.pow_0_r, Z.mul_1_r.
    assert (H2 : 0 < 2 ^ (- e)) by (apply Z.pow_pos_nonneg; lia).
    split; [apply div_half_even_nonneg; nia|].
    apply div_half_even_nearest. exact H2.
Qed.

Lemma same_float_eq x y : Binary64.same_float x y = true -> x = y.
Proof.
  unfold Binary64.same_float. intros H. apply Prim2SF_inj.
  destruct (Prim2SF x) as [a|a| |a m e], (Prim2SF y) as [b|b| |b m' e']; try discriminate.
  - apply Bool.eqb_prop in H. now subst.
  - apply Bool.eqb_prop in H. now subst.
  - reflexivity.
  - apply andb_prop in H. destruct H as [H He]. apply andb_prop in H. destruct H as [Hs Hm].
    apply Bool.eqb_prop in Hs. apply Pos.eqb_eq in Hm. apply Z.eqb_eq in He. now subst.
Qed.

(** Up to [10^4] units, the decimal read back is the float quotient
    [n / 10000]: checked for each of them. *)
Lemma decimal_to_float_quotient_check :
  forallb (fun n => Binary64.same_float (Py.decimal_to_float false n 4)
                      (Py.float_of_int n / 10000)%float) (Py.range 10001) = true.
Proof. vm_compute. reflexivity. Qed.

Lemma decimal_to_float_quotient n :
  0 <= n <= 10000 ->
  Py.decimal_to_float false n 4 = (Py.float_of_int n / 10000)%float.
Proof.
  intros H. apply same_float_eq.
  pose proof decimal_to_float_quotient_check as C.
  rewrite forallb_forall in C. apply C.
  unfold Py.range. apply in_map_iff. exists (Z.to_nat n). split; [lia|].
  apply in_seq. lia.
Qed.

End RoundFacts.

(** ** Query Orchestrator *)

Module ServiceFacts.

Import RAGService.

(** Whatever [generate_embedding] does, it makes exactly one model call,
    the embedding request for its text, and no index call. *)
Lemma generate_embedding_trace env self text tr out tr' :
  generate_embedding env self text tr = (out, tr') ->
  exists ev, tr' = tr ++ ev /\
    model_calls ev = [(Config.embed_model_id (settings self), embedding_request text)] /\
    query_calls ev = [] /\ put_batches ev = [].
Proof.
  unfold generate_embedding, bind, try_except_ClientError, invoke_model, time_time, ret, raise.
  destruct (invoke_model_response env _ _ _) as [body|e].
  - destruct (Py.dict_get "embedding" body) as [j|].
    + destruct (has_len j); intros H; inversion H; subst;
        rewrite <- !app_assoc; eexists; (split; [reflexivity|]); auto.
    + intros H; inversion H; subst; rewrite <- !app_assoc; eexists;
        (split; [reflexivity|]); auto.
  - destruct e; intros H; inversion H; subst; rewrite <- !app_assoc; eexists;
      (split; [reflexivity|]); auto.
Qed.

(** Whatever [query_vectors] does, it makes exactly one index query, with
    the parameters built from its arguments, and no model call. *)
Lemma query_vectors_trace env self emb k f thr tr out tr' :
  S3VectorClient.query_vectors env self emb k f thr tr = (out, tr') ->
  exists ev, tr' = tr ++ ev /\
    model_calls ev = [] /\
    query_calls ev = [S3VectorClient.query_params self emb k f] /\ put_batches ev = [].
Proof.
  unfold S3VectorClient.query_vectors, bind, try_except_ClientError, s3vectors_query_vectors,
    time_time, ret, raise.
  destruct (query_vectors_response env _ _) as [r|e].
  - intros H; inversion H; subst; rewrite <- !app_assoc; eexists;
      (split; [reflexivity|]); auto.
  - destruct e; intros H; inversion H; subst; rewrite <- !app_assoc; eexists;
      (split; [reflexivity|]); auto.
Qed.

(** Whatever [search_similar_chunks] does, it makes no model call and no
    put; when numpy reads the embedding, it makes exactly one index query,
    with the vector numpy read, and otherwise numpy's exception comes out
    and nothing was done. *)
Lemma search_similar_chunks_trace env self emb k thr f tr out tr' :
  search_similar_chunks env self emb k thr f tr = (out, tr') ->
  exists ev, tr' = tr ++ ev /\
    model_calls ev = [] /\ put_batches ev = [] /\
    match numpy_reads env emb with
    | Ret arr => query_calls ev = [S3VectorClient.query_params (vector_client self) arr k f]
    | Raise e => out = Raise e /\ ev = []
    end.
Proof.
  unfold search_similar_chunks, bind, lift.
  destruct (numpy_reads env emb) as [arr|e].
  - intros H. destruct (query_vectors_trace _ _ _ _ _ _ _ _ _ H) as [ev [E [Hm [Hq Hp]]]].
    exists ev. auto.
  - intros H. inversion H; subst. exists []. rewrite app_nil_r. auto.
Qed.

(** C3: [process_query] started at trace [tr0]; [start_time] is its first
    clock reading.  If the embedding call returns and retrieval returns no
    match, [process_query] returns the fixed answer, no sources,
    [chunks_found = 0] and no performance breakdown; [processing_time_ms]
    is [round((finish - start_time) * 1000, 2)], where [finish] is the
    clock reading taken when the result is built.  The run made one model
    call in all, the embedding request: the Answer Generator, whose only
    way to the model is a chat request, was not invoked. *)
Theorem process_query_no_results env self query max_chunks similarity_threshold
    metadata_filter tr0 emb tr_e tr_s :
  let start_time := clock env tr0 in
  let tr := tr0 ++ [EvTime start_time] in
  let tr1 := tr ++ [EvTime (clock env tr)] in
  generate_embedding env self query tr1 = (Ret emb, tr_e) ->
  let tr2 := tr_e ++ [EvTime (clock env tr_e)] in
  let tr3 := tr2 ++ [EvTime (clock env tr2)] in
  search_similar_chunks env self emb
    (Py.or_int max_chunks (Config.top_k (settings self)))
    (Py.or_float similarity_threshold (Config.similarity_threshold (settings self)))
    metadata_filter tr3 = (Ret [], tr_s) ->
  let tr4 := tr_s ++ [EvTime (clock env tr_s)] in
  let finish := clock env tr4 in
  let tr5 := tr4 ++ [EvTime finish] in
  let tr6 := tr5 ++ [EvNow (now_iso env tr5)] in
  process_query env self query max_chunks similarity_threshold metadata_filter tr0
  = (Ret {| res_answer := "I couldn't find any relevant information to answer your question.";
            res_query := query;
            res_sources := [];
            res_processing_time_ms := Py.round ((finish - start_time) * 1000)%float 2;
            res_chunks_found := 0;
            res_timestamp := now_iso env tr5;
            res_performance_breakdown := None |}, tr6)
  /\ model_calls (new_events tr0 tr6)
     = [(Config.embed_model_id (settings self), embedding_request query)].
Proof.
  intros start_time tr tr1 He tr2 tr3 Hs tr4 finish tr5 tr6. split.
  - unfold process_query, run_pipeline, bind at 1 2 3. unfold time_time at 1 2.
    fold start_time. fold tr. fold tr1. rewrite He.
    unfold bind at 1 2 3. unfold time_time at 1 2. fold tr2. fold tr3. rewrite Hs.
    reflexivity.
  - destruct (generate_embedding_trace _ _ _ _ _ _ He) as [ev1 [E1 [M1 _]]].
    destruct (search_similar_chunks_trace _ _ _ _ _ _ _ _ _ Hs) as [ev2 [E2 [M2 _]]].
    unfold tr6, tr5, tr4. rewrite E2. unfold tr3, tr2. rewrite E1. unfold tr1, tr.
    rewrite <- !app_assoc, new_events_app, !model_calls_app, M1, M2. reflexivity.
Qed.

Lemma process_query_no_results_witness :
  exists result tr',
    process_query Doubles.empty_index Doubles.service "What colour is the sky?" None None None []
    = (Ret result, tr') /\
    res_sources result = [] /\ res_chunks_found result = 0 /\
    res_processing_time_ms result = 15000%float /\
    model_calls tr'
    = [(Config.embed_model_id Doubles.settings, embedding_request "What colour is the sky?")].
Proof.
  edestruct (process_query_no_results Doubles.empty_index Doubles.service
               "What colour is the sky?" None None None []) as [E C].
  - vm_compute. reflexivity.
  - vm_compute. reflexivity.
  - eexists. eexists. split; [exact E|]. split; [reflexivity|]. split; [reflexivity|].
    split; [vm_compute; reflexivity | exact C].
Defined.

(** C9: the Source built from a match carries the score rounded to four
    decimal places: [round(score, 4)], which for a finite non-zero score
    [(-1)^s * mant * 2^e] is the double read back from [n / 10^4], where
    [n] is the one integer nearest to [mant * 2^e * 10^4] (the even one at
    a tie); for a score between 0 and 1 this double is the float quotient
    [n / 10000]; zeros, infinities and NaN stay as they are.  Its preview
    is the chunk text itself when that has at most 200 characters, and
    otherwise the 200-character prefix of the chunk text followed by three
    dots, 203 characters in all; so a 250-character chunk text gives a
    203-character preview. *)
Theorem source_projection (m : Match) :
  let chunk_text :=
    match md_source_text (m_metadata m) with Some s => s | None => EmptyString end in
  src_similarity_score (source_of m) = Py.round (m_score m) 4 /\
  (forall s mant e, Prim2SF (m_score m) = S754_finite s mant e ->
     exists n, 0 <= n /\ Py.nearest_scaled mant e 4 n /\
       (forall n', Py.nearest_scaled mant e 4 n' -> n' = n) /\
       src_similarity_score (source_of m) = Py.decimal_to_float s n 4 /\
       (s = false -> n <= 10000 ->
        src_similarity_score (source_of m) = (Py.float_of_int n / 10000)%float)) /\
  ((forall s mant e, Prim2SF (m_score m) <> S754_finite s mant e) ->
   src_similarity_score (source_of m) = m_score m) /\
  ((String.length chunk_text <= 200)%nat -> src_text_preview (source_of m) = chunk_text) /\
  ((200 < String.length chunk_text)%nat ->
     src_text_preview (source_of m) = (Py.str_prefix 200 chunk_text ++ "...")%string /\
     String.length (Py.str_prefix 200 chunk_text) = 200%nat /\
     String.prefix (Py.str_prefix 200 chunk_text) chunk_text = true /\
     String.length (src_text_preview (source_of m)) = 203%nat) /\
  (String.length chunk_text = 250%nat ->
     String.length (src_text_preview (source_of m)) = 203%nat).
Proof.
  intros chunk_text.
  assert (Hlong : (200 < String.length chunk_text)%nat ->
    src_text_preview (source_of m) = (Py.str_prefix 200 chunk_text ++ "...")%string /\
    String.length (Py.str_prefix 200 chunk_text) = 200%nat /\
    String.prefix (Py.str_prefix 200 chunk_text) chunk_text = true /\
    String.length (src_text_preview (source_of m)) = 203%nat).
  { intros H. unfold source_of. cbn [src_text_preview]. fold chunk_text.
    destruct (Nat.ltb_spec 200 (String.length chunk_text)) as [_|]; [|lia].
    split; [reflexivity|]. split; [rewrite StringFacts.length_prefix; lia|].
    split; [apply StringFacts.prefix_is_prefix|].
    rewrite StringFacts.length_app, StringFacts.length_prefix. cbn [String.length]. lia. }
  split; [reflexivity|]. split; [|split; [|split; [|split; [exact Hlong|]]]].
  - intros s mant e H. unfold source_of. cbn [src_similarity_score].
    unfold Py.round. rewrite H.
    destruct (RoundFacts.scaled_half_even_nearest mant e 4) as [H0 Hn]; [lia|].
    exists (Py.scaled_half_even mant e 4). split; [exact H0|]. split; [exact Hn|].
    split; [intros n' Hn'; exact (RoundFacts.nearest_scaled_unique _ _ _ _ _ Hn' Hn)|].
    split; [reflexivity|].
    intros -> Hle. apply RoundFacts.decimal_to_float_quotient. lia.
  - intros H. unfold source_of. cbn [src_similarity_score]. unfold Py.round.
    destruct (Prim2SF (m_score m)) as [| | |s mant e] eqn:E; try reflexivity.
    now contradiction (H s mant e).
  - intros H. unfold source_of. cbn [src_text_preview]. fold chunk_text.
    destruct (Nat.ltb_spec 200 (String.length chunk_text)) as [|_]; [lia | reflexivity].
  - intros H. apply Hlong. lia.
Qed.

#[warnings="-inexact-float"]
Lemma source_projection_witness :
  m_score (S3VectorClient.match_of Doubles.close) = 0.876545%float /\
  src_similarity_score (source_of (S3VectorClient.match_of Doubles.close)) = 0.8765%float /\
  src_similarity_score (source_of (S3VectorClient.match_of Doubles.close))
  = (8765 / 10000)%float /\
  String.length (src_text_preview (source_of (S3VectorClient.match_of Doubles.close)))
  = 203%nat /\
  src_text_preview (source_of (S3VectorClient.match_of Doubles.near)) = "The sky is blue."%string.
Proof.
  destruct (source_projection (S3VectorClient.match_of Doubles.close))
    as [_ [R [_ [_ [_ L]]]]].
  destruct (source_projection (S3VectorClient.match_of Doubles.near)) as [_ [_ [_ [B _]]]].
  split; [vm_compute; reflexivity|].
  assert (P : Prim2SF (m_score (S3VectorClient.match_of Doubles.close))
              = S754_finite false 7895215470746943 (-53)) by (vm_compute; reflexivity).
  destruct (R _ _ _ P) as [n [_ [_ [U [E Q]]]]].
  assert (N : 8765 = n).
  { apply U. split; [vm_compute; discriminate | intros H; vm_compute in H; discriminate]. }
  subst n. split; [rewrite E; vm_compute; reflexivity|].
  split; [rewrite (Q eq_refl ltac:(lia)); vm_compute; reflexivity|].
  split; [apply L; vm_compute; reflexivity|].
  apply B. vm_compute. lia.
Defined.

(** C6: [process_query] reads the clock once and then runs the pipeline
    with [max_chunks or settings.top_k] and
    [similarity_threshold or settings.similarity_threshold]: the supplied
    value when it is present and non-zero, the settings value when it is
    absent and equally when it is [0] or [0.0].  A call with
    [max_chunks = 0] and [similarity_threshold = 0.0] is therefore the
    same run as a call with both absent. *)
Theorem parameter_defaults env self query max_chunks similarity_threshold metadata_filter tr :
  process_query env self query max_chunks similarity_threshold metadata_filter tr
  = run_pipeline env self query (clock env tr)
      (match max_chunks with
       | Some z => if z =? 0 then Config.top_k (settings self) else z
       | None => Config.top_k (settings self)
       end)
      (match similarity_threshold with
       | Some x => if (x =? 0)%float then Config.similarity_threshold (settings self) else x
       | None => Config.similarity_threshold (settings self)
       end)
      metadata_filter (tr ++ [EvTime (clock env tr)])
  /\ process_query env self query (Some 0) (Some 0%float) metadata_filter tr
     = process_query env self query None None metadata_filter tr
  /\ process_query env self query max_chunks (Some (-0)%float) metadata_filter tr
     = process_query env self query max_chunks None metadata_filter tr.
Proof.
  split; [|split]; try reflexivity.
  unfold process_query, bind, time_time, Py.or_int, Py.or_float, Py.int_truthy, Py.float_truthy.
  destruct max_chunks as [z|]; destruct similarity_threshold as [x|];
    try destruct (z =? 0); try destruct (x =? 0)%float; reflexivity.
Qed.

(** C8: what [generate_answer] does with the backend's reply to its chat
    request.
    - The call raised: the same exception comes out of [generate_answer]
      (the spec's ModelInvocationError).
    - The body has no first text content block: [generate_answer] raises an
      error of the response-format kind (the spec's MalformedResponseError),
      namely [ValueError("Unexpected response format")] when ["content"] is
      absent or falsy.
    - The body has a first text content block and no ["usage"] key: the
      stripped text is returned. *)
Theorem generate_answer_errors env self query context tr :
  let request := chat_request (settings self) (prompt_of query context) in
  let answered :=
    invoke_model_response env (tr ++ [EvTime (clock env tr)])
      (Config.llm_model_id (settings self)) request in
  (forall e, answered = Raise e ->
     exists tr', generate_answer env self query context tr = (Raise e, tr')) /\
  (forall body, answered = Ret body -> first_text_block body = None ->
     exists e tr', generate_answer env self query context tr = (Raise e, tr') /\
       is_format_error e = true) /\
  (forall body, answered = Ret body ->
     (Py.dict_get "content" body = None \/
      exists c, Py.dict_get "content" body = Some c /\ Py.truthy c = false) ->
     exists tr', generate_answer env self query context tr
                 = (Raise (ValueError "Unexpected response format"), tr')) /\
  (forall body text, answered = Ret body -> first_text_block body = Some text ->
     Py.dict_get "usage" body = None ->
     exists tr', generate_answer env self query context tr = (Ret (Py.strip text), tr')).
Proof.
  intros request answered. subst answered request.
  unfold generate_answer, bind, try_except_ClientError, invoke_model, time_time, ret, raise, lift.
  split; [|split; [|split]].
  - intros e ->. destruct e; eexists; reflexivity.
  - intros body -> Hnone. unfold first_text_block in Hnone.
    destruct (Py.dict_get "content" body) as [c|];
      [|eexists; eexists; split; reflexivity].
    destruct c as [|b|z|x|t|l|kvs]; cbn [Py.truthy].
    + eexists; eexists; split; reflexivity.
    + destruct b; eexists; eexists; split; reflexivity.
    + destruct (Py.int_truthy z); eexists; eexists; split; reflexivity.
    + destruct (Py.float_truthy x); eexists; eexists; split; reflexivity.
    + destruct t as [|ch t]; eexists; eexists; split; reflexivity.
    + destruct l as [|blk l]; [eexists; eexists; split; reflexivity|].
      cbn [first_item].
      destruct blk as [| | | | | |block]; try (eexists; eexists; split; reflexivity).
      cbn [text_item]. destruct (Py.dict_get "text" block) as [v|];
        [|eexists; eexists; split; reflexivity].
      destruct v; try discriminate; eexists; eexists; split; reflexivity.
    + destruct kvs; eexists; eexists; split; reflexivity.
  - intros body -> [Hc|[c [Hc Ht]]]; rewrite Hc; [|rewrite Ht]; eexists; reflexivity.
  - intros body text -> Hsome Husage. unfold first_text_block in Hsome.
    destruct (Py.dict_get "content" body) as [c|]; [|discriminate].
    destruct c as [| | | | |l|]; try discriminate.
    destruct l as [|blk l]; [discriminate|].
    destruct blk as [| | | | | |block]; try discriminate.
    cbn [Py.truthy first_item text_item].
    destruct (Py.dict_get "text" block) as [v|]; [|discriminate].
    destruct v; try discriminate. injection Hsome as ->.
    cbn [strip_item]. unfold Py.dict_get_default. rewrite Husage.
    cbn [usage_counters]. eexists. reflexivity.
Qed.

Lemma generate_answer_errors_witness :
  exists tr',
    generate_answer Doubles.happy Doubles.service "What colour is the sky?" "The sky is blue." []
    = (Ret "Blue."%string, tr').
Proof.
  destruct (generate_answer_errors Doubles.happy Doubles.service "What colour is the sky?"
              "The sky is blue." []) as [_ [_ [_ H]]].
  apply (H Doubles.chat_body " Blue. "%string); reflexivity.
Defined.

End ServiceFacts.

(** ** Boundary *)

Module AppFacts.



End AppFacts.

(** * Further properties of the gateway *)

Module GatewayMore.

Import S3VectorClient.

Lemma delete_step_ok env self script ids bs i rest total tr :
  delete_scripted env script ->
  script (List.length (delete_batches tr)) = Ret tt ->
  delete_batches_loop env self ids bs (i :: rest) total tr
  = delete_batches_loop env self ids bs rest (total + Py.len (Py.slice i bs ids))
      (tr ++ [EvDeleteVectors (bucket_name self) (index_name self) (Py.slice i bs ids)]).
Proof.
  intros Hs H. cbn [delete_batches_loop].
  unfold bind at 1. unfold try_except_ClientError, s3vectors_delete_vectors.
  rewrite Hs, H. reflexivity.
Qed.

Lemma delete_step_fail env self script ids bs i rest total tr e :
  delete_scripted env script ->
  script (List.length (delete_batches tr)) = Raise e ->
  delete_batches_loop env self ids bs (i :: rest) total tr
  = (Raise e,
     tr ++ [EvDeleteVectors (bucket_name self) (index_name self) (Py.slice i bs ids)]).
Proof.
  intros Hs H. cbn [delete_batches_loop].
  unfold bind at 1. unfold try_except_ClientError, s3vectors_delete_vectors.
  rewrite Hs, H. destruct e; reflexivity.
Qed.

Lemma delete_loop_all_ok env self script ids bs :
  delete_scripted env script ->
  forall starts total tr,
    (forall n, (List.length (delete_batches tr) <= n)%nat -> script n = Ret tt) ->
    exists ev,
      delete_batches_loop env self ids bs starts total tr
      = (Ret (total + Py.len (List.concat (map (fun i => Py.slice i bs ids) starts))), tr ++ ev) /\
      delete_batches ev = map (fun i => Py.slice i bs ids) starts.
Proof.
  intros Hs. induction starts as [|i starts IH]; intros total tr Hok.
  - exists []. cbn. unfold ret, Py.len. cbn. rewrite Z.add_0_r, app_nil_r. auto.
  - rewrite (delete_step_ok env self script ids bs i starts total tr Hs) by (apply Hok; lia).
    set (tr1 := tr ++ _).
    destruct (IH (total + Py.len (Py.slice i bs ids)) tr1) as [ev [E Hp]].
    { intros n Hn. apply Hok. unfold tr1 in Hn.
      rewrite delete_batches_app, length_app in Hn. lia. }
    eexists. rewrite E. unfold tr1. rewrite <- app_assoc. split.
    + cbn [map List.concat]. rewrite BatchFacts.len_app, Z.add_assoc. reflexivity.
    + rewrite delete_batches_app. cbn. now rewrite Hp.
Qed.

Lemma delete_loop_fails_at env self script ids bs e :
  delete_scripted env script ->
  forall starts j total tr,
    (j < List.length starts)%nat ->
    (forall n, (List.length (delete_batches tr) <= n < List.length (delete_batches tr) + j)%nat ->
               script n = Ret tt) ->
    script (List.length (delete_batches tr) + j)%nat = Raise e ->
    exists ev,
      delete_batches_loop env self ids bs starts total tr = (Raise e, tr ++ ev) /\
      delete_batches ev = map (fun i => Py.slice i bs ids) (firstn (S j) starts).
Proof.
  intros Hs. induction starts as [|i starts IH]; intros j total tr Hj Hok He.
  - cbn in Hj. lia.
  - destruct j as [|j].
    + rewrite Nat.add_0_r in He.
      rewrite (delete_step_fail env self script ids bs i starts total tr e Hs He).
      eexists. split; [reflexivity|]. reflexivity.
    + rewrite (delete_step_ok env self script ids bs i starts total tr Hs) by (apply Hok; lia).
      set (tr1 := tr ++ _).
      assert (K : List.length (delete_batches tr1) = S (List.length (delete_batches tr))).
      { unfold tr1. rewrite delete_batches_app, length_app. cbn. lia. }
      destruct (IH j (total + Py.len (Py.slice i bs ids)) tr1) as [ev [E Hp]].
      * cbn in Hj. lia.
      * intros n Hn. apply Hok. lia.
      * rewrite K. rewrite <- He. f_equal. lia.
      * eexists. rewrite E. unfold tr1. rewrite <- app_assoc. split; [reflexivity|].
        rewrite delete_batches_app. cbn [app delete_batches firstn map]. now rewrite Hp.
Qed.

(** X1: when every delete call succeeds, [delete_vectors] sends the keys
    in successive batches of at most 500, (n + 499) / 500 calls whose
    batches put back together are the input keys, and returns the number
    of keys; for no keys it makes no call and returns 0. *)
Theorem delete_vectors_batches env self vector_ids tr :
  (forall tr' b i keys, delete_vectors_response env tr' b i keys = Ret tt) ->
  exists tr',
    delete_vectors env self vector_ids tr = (Ret (Py.len vector_ids), tr') /\
    List.concat (delete_batches (new_events tr tr')) = vector_ids /\
    Forall (fun b => (List.length b <= 500)%nat) (delete_batches (new_events tr tr')) /\
    List.length (delete_batches (new_events tr tr'))
      = ((List.length vector_ids + 499) / 500)%nat /\
    (vector_ids = [] -> tr' = tr).
Proof.
  intros Hok.
  assert (Hs : delete_scripted env (fun _ => Ret tt)) by (intros ? ? ? ?; apply Hok).
  unfold delete_vectors.
  destruct (delete_loop_all_ok env self (fun _ => Ret tt) vector_ids 500%nat Hs
              (Py.range_step (List.length vector_ids) 500) 0 tr) as [ev [E Hp]];
    [reflexivity|].
  exists (tr ++ ev). rewrite new_events_app, Hp.
  rewrite BatchFacts.concat_range_step_slices in * by lia.
  split; [exact E|]. split; [reflexivity|].
  split; [apply BatchFacts.slices_bounded|]. split.
  - unfold Py.range_step. rewrite !length_map, length_seq. f_equal. lia.
  - intros ->. cbn in Hp. destruct ev as [|ev0 ev]; [apply app_nil_r|].
    cbn in E. unfold ret in E. inversion E as [E'].
    apply (f_equal (@List.length event)) in E'. rewrite length_app in E'. cbn in E'. lia.
Qed.

Lemma delete_vectors_batches_witness :
  exists tr',
    delete_vectors Doubles.happy Doubles.client ["a"; "b"; "c"]%string []
      = (Ret 3, tr') /\
    delete_batches tr' = [["a"; "b"; "c"]%string].
Proof.
  destruct (delete_vectors_batches Doubles.happy Doubles.client ["a"; "b"; "c"]%string [])
    as [tr' [E _]].
  - intros tr' b i keys. reflexivity.
  - exists tr'. split; [exact E|].
    vm_compute in E. inversion E. reflexivity.
Defined.

(** X2: [delete_vectors] stops at the first failing batch.  If the first
    [j] delete calls succeed and the next one raises, [delete_vectors]
    raises that exception; it has sent exactly the first [j + 1] batches,
    so the keys of the first [j] batches are deleted and the remaining
    batches are never attempted. *)
Theorem delete_vectors_stops_at_failure env self script vector_ids tr j e :
  delete_scripted env script ->
  (j < (List.length vector_ids + 499) / 500)%nat ->
  (forall n, (List.length (delete_batches tr) <= n < List.length (delete_batches tr) + j)%nat ->
             script n = Ret tt) ->
  script (List.length (delete_batches tr) + j)%nat = Raise e ->
  exists tr',
    delete_vectors env self vector_ids tr = (Raise e, tr') /\
    delete_batches (new_events tr tr')
    = map (fun i => Py.slice i 500 vector_ids)
        (firstn (S j) (Py.range_step (List.length vector_ids) 500)).
Proof.
  intros Hs Hj Hok He. unfold delete_vectors.
  destruct (delete_loop_fails_at env self script vector_ids 500%nat e Hs
              (Py.range_step (List.length vector_ids) 500) j 0 tr) as [ev [E Hp]];
    try assumption.
  - unfold Py.range_step. rewrite length_map, length_seq.
    replace (List.length vector_ids + 500 - 1)%nat with (List.length vector_ids + 499)%nat by lia.
    exact Hj.
  - exists (tr ++ ev). rewrite new_events_app. split; assumption.
Qed.

Lemma delete_vectors_stops_at_failure_witness :
  exists tr',
    delete_vectors (Doubles.delete_fails_at 1) Doubles.client (Doubles.keys 1200) []
      = (Raise Doubles.throttled, tr') /\
    map (@List.length string) (delete_batches tr') = [500; 500]%nat.
Proof.
  destruct (delete_vectors_stops_at_failure (Doubles.delete_fails_at 1) Doubles.client
              (Doubles.fails_at 1 Doubles.throttled) (Doubles.keys 1200) [] 1 Doubles.throttled)
    as [tr' [E B]].
  - intros tr b i ks. reflexivity.
  - vm_compute. lia.
  - intros n Hn. cbn in Hn. assert (n = 0%nat) as -> by lia. reflexivity.
  - reflexivity.
  - exists tr'. split; [exact E|].
    change tr' with (new_events [] tr'). rewrite B. vm_compute. reflexivity.
Defined.

Lemma put_loop_fails_at env self script fv bs a attempts e :
  put_scripted env script ->
  Py.range (max_retries self) = a :: attempts ->
  e <> ClientError "TooManyRequestsException" ->
  forall starts j total tr,
    (j < List.length starts)%nat ->
    (forall n, (List.length (put_batches tr) <= n < List.length (put_batches tr) + j)%nat ->
               script n = Ret tt) ->
    script (List.length (put_batches tr) + j)%nat = Raise e ->
    exists ev,
      put_batches_loop env self fv bs starts total tr = (Raise e, tr ++ ev) /\
      put_batches ev = map (fun i => Py.slice i bs fv) (firstn (S j) starts) /\
      sleeps ev = [].
Proof.
  intros Hs Hr Hne. induction starts as [|i starts IH]; intros j total tr Hj Hok He.
  - cbn in Hj. lia.
  - cbn [put_batches_loop]. unfold bind. rewrite Hr. destruct j as [|j].
    + rewrite Nat.add_0_r in He.
      rewrite (UpsertFacts.put_batch_other_error env self script _ a attempts total tr e Hs He Hne).
      eexists. split; [reflexivity|]. split; reflexivity.
    + rewrite (UpsertFacts.put_batch_ok env self script _ a attempts total tr Hs)
        by (apply Hok; lia).
      set (tr1 := tr ++ _).
      assert (K : List.length (put_batches tr1) = S (List.length (put_batches tr))).
      { unfold tr1. rewrite put_batches_app, length_app. cbn. lia. }
      destruct (IH j (total + Py.len (Py.slice i bs fv)) tr1) as [ev [E [Hp Hsl]]].
      * cbn in Hj. lia.
      * intros n Hn. apply Hok. lia.
      * rewrite K. rewrite <- He. f_equal. lia.
      * eexists. rewrite E. unfold tr1. rewrite <- app_assoc. split; [reflexivity|].
        rewrite put_batches_app, sleeps_app. cbn [app put_batches sleeps firstn map].
        rewrite Hp, Hsl. split; reflexivity.
Qed.

(** X3: an upsert that fails part-way keeps what it has already sent.  If
    the first [j] put calls succeed and the next one raises anything but a
    rate-limit error, [upsert_vectors] raises that exception without
    sleeping or retrying; it has sent exactly the first [j + 1] batches, so
    [j] batches are stored in the index, the caller gets no count, and the
    later batches are never sent. *)
Theorem upsert_partial_failure env region bucket index script vectors tr j e :
  put_scripted env script ->
  e <> ClientError "TooManyRequestsException" ->
  (j < (List.length vectors + 499) / 500)%nat ->
  (forall n, (List.length (put_batches tr) <= n < List.length (put_batches tr) + j)%nat ->
             script n = Ret tt) ->
  script (List.length (put_batches tr) + j)%nat = Raise e ->
  exists tr',
    upsert_vectors env (init region bucket index) vectors tr = (Raise e, tr') /\
    put_batches (new_events tr tr')
    = map (fun i => Py.slice i 500 (map format_vector vectors))
        (firstn (S j) (Py.range_step (List.length vectors) 500)) /\
    sleeps (new_events tr tr') = [].
Proof.
  intros Hs Hne Hj Hok He. unfold upsert_vectors.
  destruct (put_loop_fails_at env (init region bucket index) script (map format_vector vectors)
              500%nat 0 [1; 2] e Hs (UpsertFacts.range_init _ _ _) Hne
              (Py.range_step (List.length (map format_vector vectors)) 500) j 0 tr)
    as [ev [E [Hp Hsl]]]; try assumption.
  - unfold Py.range_step. rewrite !length_map, length_seq.
    replace (List.length vectors + 500 - 1)%nat with (List.length vectors + 499)%nat by lia.
    exact Hj.
  - exists (tr ++ ev). rewrite new_events_app. rewrite length_map in Hp.
    split; [exact E|]. split; assumption.
Qed.

Lemma upsert_partial_failure_witness :
  exists tr',
    upsert_vectors (Doubles.put_fails_at 1) (init "us-east-1" "vectors" "rag-index")
      (Doubles.records 1200) []
      = (Raise (ClientError "AccessDeniedException"), tr') /\
    map (@List.length FormattedVector) (put_batches tr') = [500; 500]%nat.
Proof.
  destruct (upsert_partial_failure (Doubles.put_fails_at 1) "us-east-1" "vectors" "rag-index"
              (Doubles.fails_at 1 (ClientError "AccessDeniedException"))
              (Doubles.records 1200) [] 1 (ClientError "AccessDeniedException"))
    as [tr' [E [B _]]].
  - intros tr b i batch. reflexivity.
  - discriminate.
  - vm_compute. lia.
  - intros n Hn. cbn in Hn. assert (n = 0%nat) as -> by lia. reflexivity.
  - reflexivity.
  - exists tr'. split; [exact E|].
    change tr' with (new_events [] tr'). rewrite B. vm_compute. reflexivity.
Defined.

(** X4: the retry budget is per batch, wherever the batch lies.  If the
    first [j] put calls succeed, the next two are rate limited and all
    later ones succeed, then [upsert_vectors] returns the number of input
    records; it has slept 1.0 and 2.0 seconds, and has sent the batches in
    order with batch [j] sent three times. *)
Theorem upsert_retry_any_batch env region bucket index script vectors tr j :
  let self := init region bucket index in
  let k := List.length (put_batches tr) in
  let fv := map format_vector vectors in
  let starts := Py.range_step (List.length vectors) 500 in
  let batch := fun i => Py.slice i 500 fv in
  let limited := Raise (ClientError "TooManyRequestsException") in
  put_scripted env script ->
  (j < List.length starts)%nat ->
  (forall n, (k <= n < k + j)%nat -> script n = Ret tt) ->
  script (k + j)%nat = limited ->
  script (k + j + 1)%nat = limited ->
  (forall n, (k + j + 2 <= n)%nat -> script n = Ret tt) ->
  exists tr',
    upsert_vectors env self vectors tr = (Ret (Py.len vectors), tr') /\
    sleeps (new_events tr tr') = [1%float; 2%float] /\
    put_batches (new_events tr tr')
    = map batch (firstn j starts)
      ++ [batch (nth j starts 0%nat); batch (nth j starts 0%nat); batch (nth j starts 0%nat)]
      ++ map batch (skipn (S j) starts).
Proof.
  intros self k fv starts batch limited Hs Hj Hpre H0 H1 Hpost.
  pose proof (BatchFacts.concat_range_step_slices 500 fv ltac:(lia)) as Hcat.
  unfold fv in Hcat at 2. rewrite length_map in Hcat. fold starts in Hcat.
  assert (Hsplit : starts = firstn j starts ++ nth j starts 0%nat :: skipn (S j) starts).
  { rewrite <- (firstn_skipn j starts) at 1. f_equal.
    clear - Hj. revert j Hj. induction starts as [|x xs IH]; intros [|j] Hj; cbn in *;
      try lia; [reflexivity | apply IH; lia]. }
  assert (Hlen1 : List.length (firstn j starts) = j) by (rewrite length_firstn; lia).
  assert (Hsplit' : Py.range_step (List.length vectors) 500
                    = firstn j starts ++ nth j starts 0%nat :: skipn (S j) starts)
    by exact Hsplit.
  unfold upsert_vectors. fold fv. unfold fv at 2. rewrite length_map.
  rewrite Hsplit'. rewrite UpsertFacts.put_loop_app.
  destruct (UpsertFacts.put_loop_ok_bounded env self script fv 500%nat 0 [1; 2] Hs
              (UpsertFacts.range_init _ _ _) (firstn j starts) 0 tr) as [ev1 [E1 [P1 S1]]].
  { intros n Hn. apply Hpre. rewrite Hlen1 in Hn. exact Hn. }
  rewrite E1. cbn [put_batches_loop]. unfold bind.
  change (Py.range (max_retries self)) with [0; 1; 2].
  set (b := Py.slice (nth j starts 0%nat) 500 fv).
  set (t1 := 0 + Py.len (List.concat (map (fun i => Py.slice i 500 fv) (firstn j starts)))).
  set (trA := tr ++ ev1).
  assert (KA : List.length (put_batches trA) = (k + j)%nat).
  { unfold trA. rewrite put_batches_app, length_app, P1, length_map, Hlen1. reflexivity. }
  rewrite (UpsertFacts.put_batch_retry env self script b 0 _ t1 trA Hs)
    by (rewrite ?KA; auto).
  set (trB := trA ++ _).
  assert (KB : List.length (put_batches trB) = (k + j + 1)%nat).
  { unfold trB. rewrite put_batches_app, length_app, KA. cbn. lia. }
  rewrite (UpsertFacts.put_batch_retry env self script b 1 _ t1 trB Hs)
    by (rewrite ?KB; auto).
  set (trC := trB ++ _).
  assert (KC : List.length (put_batches trC) = (k + j + 2)%nat).
  { unfold trC. rewrite put_batches_app, length_app, KB. cbn. lia. }
  rewrite (UpsertFacts.put_batch_ok env self script b 2 [] t1 trC Hs)
    by (rewrite KC; apply Hpost; lia).
  set (trD := trC ++ _).
  destruct (UpsertFacts.loop_all_ok env self script fv 500%nat 0 [1; 2] Hs
              (UpsertFacts.range_init _ _ _) (skipn (S j) starts) (t1 + Py.len b) trD)
    as [ev2 [E2 [P2 S2]]].
  { intros n Hn. apply Hpost. unfold trD in Hn.
    rewrite put_batches_app, length_app, KC in Hn. cbn in Hn. lia. }
  exists (trD ++ ev2). rewrite E2. split; [|split].
  - rewrite Hsplit in Hcat. rewrite map_app, concat_app in Hcat.
    cbn [map List.concat] in Hcat. fold b in Hcat.
    pose proof (f_equal Py.len Hcat) as HL.
    rewrite !BatchFacts.len_app in HL.
    assert (HF : Py.len fv = Py.len vectors) by apply UpsertFacts.len_map.
    unfold t1.
    match goal with |- (Ret ?x, _) = _ => replace x with (Py.len vectors) by lia end.
    reflexivity.
  - unfold trD, trC, trB, trA. rewrite <- !app_assoc, new_events_app.
    rewrite !sleeps_app, S1, S2. reflexivity.
  - unfold trD, trC, trB, trA. rewrite <- !app_assoc, new_events_app.
    rewrite !put_batches_app, P1, P2. reflexivity.
Qed.

Lemma upsert_retry_any_batch_witness :
  exists tr',
    upsert_vectors
      (Doubles.world (Ret Doubles.embedding_body) (Ret Doubles.chat_body)
         (fun n => if ((1 <=? n) && (n <=? 2))%nat then Doubles.rate_limited else Ret tt)
         (Ret Doubles.no_vectors) Doubles.ok)
      (init "us-east-1" "vectors" "rag-index") (Doubles.records 1200) []
    = (Ret 1200, tr') /\
    sleeps (new_events [] tr') = [1%float; 2%float] /\
    map (@List.length FormattedVector) (put_batches (new_events [] tr'))
    = [500; 500; 500; 500; 200]%nat.
Proof.
  destruct (upsert_retry_any_batch
              (Doubles.world (Ret Doubles.embedding_body) (Ret Doubles.chat_body)
                 (fun n => if ((1 <=? n) && (n <=? 2))%nat then Doubles.rate_limited else Ret tt)
                 (Ret Doubles.no_vectors) Doubles.ok)
              "us-east-1" "vectors" "rag-index"
              (fun n => if ((1 <=? n) && (n <=? 2))%nat then Doubles.rate_limited else Ret tt)
              (Doubles.records 1200) [] 1) as [tr' [E [S B]]].
  - intros tr b i batch. reflexivity.
  - vm_compute. lia.
  - intros n Hn. cbn in Hn. assert (n = 0%nat) as -> by lia. reflexivity.
  - reflexivity.
  - reflexivity.
  - intros n Hn. cbn in Hn.
    destruct n as [|[|[|n]]]; try lia; reflexivity.
  - exists tr'. split; [exact E|]. split; [exact S|]. rewrite B. vm_compute. reflexivity.
Defined.

(** X5: the index call fails: [query_vectors] raises the very exception
    the call raised, after that one query call, with no retry and no
    sleep. *)
Theorem query_vectors_failure env self emb k f thr tr e :
  query_vectors_response env (tr ++ [EvTime (clock env tr)]) (query_params self emb k f)
    = Raise e ->
  exists tr',
    query_vectors env self emb k f thr tr = (Raise e, tr') /\
    query_calls (new_events tr tr') = [query_params self emb k f] /\
    sleeps (new_events tr tr') = [].
Proof.
  intros H. unfold query_vectors, bind, try_except_ClientError, s3vectors_query_vectors,
    time_time, ret, raise. rewrite H.
  destruct e; rewrite <- ?app_assoc; eexists; (split; [reflexivity|]);
    rewrite new_events_app; split; reflexivity.
Qed.

Lemma query_vectors_failure_witness :
  exists tr',
    query_vectors Doubles.index_down Doubles.client [0.5%float] 6 None 0.5%float []
      = (Raise (ClientError "ServiceUnavailableException"), tr') /\
    query_calls (new_events [] tr') = [query_params Doubles.client [0.5%float] 6 None] /\
    sleeps (new_events [] tr') = [].
Proof.
  apply (query_vectors_failure Doubles.index_down Doubles.client [0.5%float] 6 None 0.5%float []
           (ClientError "ServiceUnavailableException")).
  reflexivity.
Defined.

(** X6: the matches [query_vectors] returns keep the order of the index
    response and are at most as many as the response vectors; each carries
    the key of its vector as id, the computed similarity as score, and the
    vector's metadata, or the empty mapping when the vector has none.  A
    response without a vector list gives no match. *)
Theorem query_vectors_matches env self emb k f thr tr response :
  query_vectors_response env (tr ++ [EvTime (clock env tr)]) (query_params self emb k f)
    = Ret response ->
  exists matches tr',
    query_vectors env self emb k f thr tr = (Ret matches, tr') /\
    matches = map match_of
                (filter (fun v => (thr <=? similarity_score v)%float)
                        (response_vectors response)) /\
    (List.length matches <= List.length (response_vectors response))%nat /\
    (forall m, In m matches ->
       exists v, In v (response_vectors response) /\ m_id m = rv_key v /\
         m_score m = similarity_score v /\
         m_metadata m = match rv_metadata v with Some md => md | None => empty_metadata end) /\
    (qr_vectors response = None -> matches = []).
Proof.
  intros H. destruct (GatewayFacts.query_vectors_answered env self emb k f thr tr response H)
    as [tr' E].
  eexists. exists tr'. split; [exact E|]. split; [reflexivity|]. split; [|split].
  - rewrite length_map. apply filter_length_le.
  - intros m Hm. apply in_map_iff in Hm. destruct Hm as [v [<- Hv]].
    apply filter_In in Hv. exists v. split; [exact (proj1 Hv)|]. split; [|split]; reflexivity.
  - intros Hn. unfold response_vectors. rewrite Hn. reflexivity.
Qed.

Lemma query_vectors_matches_witness :
  exists tr',
    query_vectors Doubles.happy Doubles.client [0.5%float] 6 None 0.5%float []
    = (Ret [match_of Doubles.near; match_of Doubles.bare], tr').
Proof.
  destruct (query_vectors_matches Doubles.happy Doubles.client [0.5%float] 6 None 0.5%float []
              Doubles.three_vectors) as [matches [tr' [E [M _]]]].
  - reflexivity.
  - exists tr'. rewrite E, M. reflexivity.
Defined.

End GatewayMore.

(** * Further properties of the orchestrator *)

Module ServiceMore.

Import RAGService.

(** X7: what [generate_embedding] makes of the model's reply.  A body
    with a list under ["embedding"] gives that list as it is, whatever its
    items (and so does any other value that has a length); a value without
    a length raises [TypeError] where its length is logged; a body without
    the key raises [KeyError('embedding')]; an exception of the call itself
    comes out unchanged.  There is no retry: one model call in each case. *)
Theorem generate_embedding_outcomes env self text tr :
  let answered :=
    invoke_model_response env (tr ++ [EvTime (clock env tr)])
      (Config.embed_model_id (settings self)) (embedding_request text) in
  (forall body items, answered = Ret body ->
     Py.dict_get "embedding" body = Some (Py.JList items) ->
     exists tr', generate_embedding env self text tr = (Ret (Py.JList items), tr')) /\
  (forall body j, answered = Ret body -> Py.dict_get "embedding" body = Some j ->
     exists tr', generate_embedding env self text tr
                 = ((if has_len j then Ret j else Raise TypeError), tr')) /\
  (forall body, answered = Ret body -> Py.dict_get "embedding" body = None ->
     exists tr', generate_embedding env self text tr = (Raise (KeyError "embedding"), tr')) /\
  (forall e, answered = Raise e ->
     exists tr', generate_embedding env self text tr = (Raise e, tr')) /\
  (forall out tr', generate_embedding env self text tr = (out, tr') ->
     model_calls (new_events tr tr')
     = [(Config.embed_model_id (settings self), embedding_request text)]).
Proof.
  intros answered. subst answered. split; [|split; [|split; [|split]]].
  - intros body items H Hj.
    unfold generate_embedding, bind, try_except_ClientError, invoke_model, time_time, ret, raise.
    rewrite H, Hj. eexists. reflexivity.
  - intros body j H Hj.
    unfold generate_embedding, bind, try_except_ClientError, invoke_model, time_time, ret, raise.
    rewrite H, Hj. destruct (has_len j); eexists; reflexivity.
  - intros body H Hj.
    unfold generate_embedding, bind, try_except_ClientError, invoke_model, time_time, ret, raise.
    rewrite H, Hj. eexists. reflexivity.
  - intros e H.
    unfold generate_embedding, bind, try_except_ClientError, invoke_model, time_time, ret, raise.
    rewrite H. destruct e; eexists; reflexivity.
  - intros out tr' H.
    destruct (ServiceFacts.generate_embedding_trace _ _ _ _ _ _ H) as [ev [-> [M _]]].
    now rewrite new_events_app.
Qed.

Lemma generate_embedding_outcomes_witness :
  exists tr',
    generate_embedding Doubles.happy Doubles.service "test" []
    = (Ret (Py.JList [Py.JFloat 0.5%float; Py.JFloat 0.25%float]), tr').
Proof.
  destruct (generate_embedding_outcomes Doubles.happy Doubles.service "test" []) as [H _].
  apply (H Doubles.embedding_body [Py.JFloat 0.5%float; Py.JFloat 0.25%float]); reflexivity.
Defined.

(** Whatever [generate_answer] does, it makes exactly one model call, the
    chat request built from its prompt, and no index call. *)
Lemma generate_answer_trace env self query context tr out tr' :
  generate_answer env self query context tr = (out, tr') ->
  exists ev, tr' = tr ++ ev /\
    model_calls ev
    = [(Config.llm_model_id (settings self),
        chat_request (settings self) (prompt_of query context))] /\
    query_calls ev = [].
Proof.
  unfold generate_answer, bind, try_except_ClientError, invoke_model, time_time, ret, raise, lift.
  destruct (invoke_model_response env _ _ _) as [body|e].
  - destruct (Py.dict_get "content" body) as [c|].
    + destruct (Py.truthy c).
      * destruct (first_item c) as [blk|e1]; [|destruct e1].
        1: destruct (text_item blk) as [t|e2]; [|destruct e2].
        1: destruct (strip_item t) as [a|e3]; [|destruct e3].
        1: destruct (usage_counters _) as [u|e4]; [|destruct e4].
        all: intros H; inversion H; subst; rewrite <- ?app_assoc; eexists;
          (split; [reflexivity|]); auto.
      * intros H; inversion H; subst; rewrite <- ?app_assoc; eexists;
          (split; [reflexivity|]); auto.
    + intros H; inversion H; subst; rewrite <- ?app_assoc; eexists;
        (split; [reflexivity|]); auto.
  - destruct e; intros H; inversion H; subst; rewrite <- ?app_assoc; eexists;
      (split; [reflexivity|]); auto.
Qed.

(** X8: [health_check] never raises.  It reports ["s3_vectors"] as
    healthy unconditionally (the stats call touches no service), and
    ["bedrock"] as healthy exactly when the probe embedding of "test"
    returns, unhealthy when it raises; the probe is its only call. *)
Theorem health_check_report env self tr :
  exists bedrock tr',
    health_check env self tr
    = (Ret [("bedrock"%string, bedrock); ("s3_vectors"%string, "healthy"%string)], tr') /\
    (forall e tr1, generate_embedding env self "test" tr = (Ret e, tr1) ->
       bedrock = "healthy"%string) /\
    (forall e tr1, generate_embedding env self "test" tr = (Raise e, tr1) ->
       bedrock = "unhealthy"%string) /\
    model_calls (new_events tr tr')
    = [(Config.embed_model_id (settings self), embedding_request "test")].
Proof.
  unfold health_check, bind at 1, try_except, bind at 1.
  destruct (generate_embedding env self "test" tr) as [[e|e] tr1] eqn:E;
    destruct (ServiceFacts.generate_embedding_trace _ _ _ _ _ _ E) as [ev [-> [M _]]];
    unfold bind, ret; eexists; eexists; (split; [reflexivity|]);
    rewrite new_events_app; (split; [|split]); try exact M;
    intros e' tr1' H; inversion H; reflexivity.
Qed.

Lemma nth_context_parts chunks : forall start i m,
  nth_error chunks i = Some m ->
  nth_error (context_parts_from start chunks) i = Some (context_part (start + i) m).
Proof.
  induction chunks as [|c chunks IH]; intros start [|i] m H;
    cbn [nth_error context_parts_from] in *; try discriminate.
  - inversion H. now rewrite Nat.add_0_r.
  - replace (start + S i)%nat with (S start + i)%nat by lia. now apply IH.
Qed.

Lemma length_context_parts chunks : forall start,
  List.length (context_parts_from start chunks) = List.length chunks.
Proof. induction chunks; intros start; cbn; [reflexivity | now rewrite IHchunks]. Qed.

(** X9: the context blocks follow retrieval order and are numbered from 1:
    there is one block per match, and the block of the match at position
    [i] (from 0) is "[Source i+1]: " followed by that match's stored text,
    or by nothing when the match has no ["source_text"]. *)
Theorem context_blocks_numbered chunks :
  List.length (context_parts_from 0 chunks) = List.length chunks /\
  (forall i m, nth_error chunks i = Some m ->
     nth_error (context_parts_from 0 chunks) i
     = Some ("[Source " ++ Py.str_of_nat (i + 1) ++ "]: "
             ++ match md_source_text (m_metadata m) with
                | Some s => s
                | None => EmptyString
                end)%string).
Proof.
  split; [apply length_context_parts|].
  intros i m H. now rewrite (nth_context_parts chunks 0 i m H).
Qed.

Lemma context_blocks_numbered_witness :
  nth_error
    (context_parts_from 0 [S3VectorClient.match_of Doubles.near;
                           S3VectorClient.match_of Doubles.bare]) 1
  = Some "[Source 2]: "%string.
Proof.
  destruct (context_blocks_numbered [S3VectorClient.match_of Doubles.near;
                                     S3VectorClient.match_of Doubles.bare]) as [_ H].
  apply (H 1%nat (S3VectorClient.match_of Doubles.bare)). reflexivity.
Defined.

(** X10: a preview never has more than 203 characters: its length is 203
    when the chunk text has more than 200 characters, and the length of
    the text otherwise; a text of 201 or 202 characters gets a preview
    longer than itself. *)
Theorem preview_length (m : Match) :
  let chunk_text :=
    match md_source_text (m_metadata m) with Some s => s | None => EmptyString end in
  let preview := src_text_preview (source_of m) in
  (String.length preview <= 203)%nat /\
  String.length preview
  = (if (200 <? String.length chunk_text)%nat then 203 else String.length chunk_text)%nat /\
  ((200 < String.length chunk_text < 203)%nat ->
   (String.length chunk_text < String.length preview)%nat).
Proof.
  intros chunk_text preview. subst preview. unfold source_of. cbn [src_text_preview].
  fold chunk_text.
  destruct (Nat.ltb_spec 200 (String.length chunk_text)) as [H|H].
  - rewrite StringFacts.length_app, StringFacts.length_prefix. cbn [String.length].
    repeat split; lia.
  - repeat split; lia.
Qed.

(** X11: the answering path of [process_query].  If the embedding call
    returns, retrieval returns at least one match and the answer call
    returns, then [process_query] returns that answer with the query
    echoed, one Source per match in retrieval order, [chunks_found] equal
    to the number of matches, and a performance breakdown whose [total_ms]
    is [processing_time_ms].  The answer was asked for with the context
    blocks joined by a blank line, and the run made two model calls (the
    embedding request, then the chat request) and one index query. *)
Theorem process_query_answers env self query max_chunks similarity_threshold
    metadata_filter tr0 emb tr_e m ms tr_s ans tr_a :
  let start_time := clock env tr0 in
  let tr := tr0 ++ [EvTime start_time] in
  let tr1 := tr ++ [EvTime (clock env tr)] in
  generate_embedding env self query tr1 = (Ret emb, tr_e) ->
  let tr2 := tr_e ++ [EvTime (clock env tr_e)] in
  let tr3 := tr2 ++ [EvTime (clock env tr2)] in
  search_similar_chunks env self emb
    (Py.or_int max_chunks (Config.top_k (settings self)))
    (Py.or_float similarity_threshold (Config.similarity_threshold (settings self)))
    metadata_filter tr3 = (Ret (m :: ms), tr_s) ->
  let context := String.concat (nl ++ nl) (context_parts_from 0 (m :: ms)) in
  let tr4 := tr_s ++ [EvTime (clock env tr_s)] in
  let tr5 := tr4 ++ [EvTime (clock env tr4)] in
  generate_answer env self query context tr5 = (Ret ans, tr_a) ->
  exists result tr',
    process_query env self query max_chunks similarity_threshold metadata_filter tr0
    = (Ret result, tr') /\
    res_answer result = ans /\
    res_query result = query /\
    res_sources result = map source_of (m :: ms) /\
    res_chunks_found result = Py.len (m :: ms) /\
    Py.len (res_sources result) = res_chunks_found result /\
    (exists pb, res_performance_breakdown result = Some pb /\
                total_ms pb = res_processing_time_ms result) /\
    model_calls (new_events tr0 tr')
    = [(Config.embed_model_id (settings self), embedding_request query);
       (Config.llm_model_id (settings self),
        chat_request (settings self) (prompt_of query context))] /\
    List.length (query_calls (new_events tr0 tr')) = 1%nat.
Proof.
  intros start_time tr tr1 He tr2 tr3 Hs context tr4 tr5 Ha.
  eexists. eexists. split.
  - unfold process_query, run_pipeline, bind at 1 2 3. unfold time_time at 1 2.
    fold start_time. fold tr. fold tr1. rewrite He.
    unfold bind at 1 2 3. unfold time_time at 1 2. fold tr2. fold tr3. rewrite Hs.
    unfold bind at 1 2 3. unfold time_time at 1 2. fold tr4. fold tr5. fold context.
    rewrite Ha. reflexivity.
  - cbn [res_answer res_query res_sources res_chunks_found res_performance_breakdown
         res_processing_time_ms].
    split; [reflexivity|]. split; [reflexivity|]. split; [reflexivity|].
    split; [reflexivity|]. split; [apply UpsertFacts.len_map|].
    split; [eexists; split; reflexivity|].
    destruct (ServiceFacts.generate_embedding_trace _ _ _ _ _ _ He) as [ev1 [E1 [M1 [Q1 _]]]].
    destruct (ServiceFacts.search_similar_chunks_trace _ _ _ _ _ _ _ _ _ Hs)
      as [ev2 [E2 [M2 [_ Q2]]]].
    destruct (numpy_reads env emb) as [arr|e]; [|destruct Q2; discriminate].
    destruct (generate_answer_trace _ _ _ _ _ _ _ Ha) as [ev3 [E3 [M3 Q3]]].
    rewrite E3. unfold tr5, tr4. rewrite E2. unfold tr3, tr2. rewrite E1. unfold tr1, tr.
    rewrite <- !app_assoc, new_events_app.
    rewrite !model_calls_app, !query_calls_app, M1, M2, M3, Q1, Q2, Q3. split; reflexivity.
Qed.

Lemma process_query_answers_witness :
  exists result tr',
    process_query Doubles.happy Doubles.service "What colour is the sky?" None None None []
    = (Ret result, tr') /\
    res_answer result = "Blue."%string /\
    map src_similarity_score (res_sources result) = [0.875%float; 1%float] /\
    res_chunks_found result = 2.
Proof.
  edestruct (process_query_answers Doubles.happy Doubles.service "What colour is the sky?"
               None None None []) as [result [tr' [E [A [_ [S [C _]]]]]]].
  - vm_compute. reflexivity.
  - vm_compute. reflexivity.
  - vm_compute. reflexivity.
  - exists result, tr'. split; [exact E|]. split; [exact A|].
    split; [rewrite S; vm_compute; reflexivity | rewrite C; reflexivity].
Defined.

(** X12: [process_query] catches nothing.  An exception of the embedding
    call comes out of [process_query] before any index query is made; an
    exception of the index query comes out before any chat request is
    made; an exception of the answer call comes out as it is.  No partial
    result is returned in any of the three cases. *)
Theorem process_query_propagates env self query max_chunks similarity_threshold
    metadata_filter tr0 :
  let start_time := clock env tr0 in
  let tr := tr0 ++ [EvTime start_time] in
  let tr1 := tr ++ [EvTime (clock env tr)] in
  let k := Py.or_int max_chunks (Config.top_k (settings self)) in
  let thr := Py.or_float similarity_threshold (Config.similarity_threshold (settings self)) in
  (forall e tr_e, generate_embedding env self query tr1 = (Raise e, tr_e) ->
     process_query env self query max_chunks similarity_threshold metadata_filter tr0
     = (Raise e, tr_e) /\
     query_calls (new_events tr0 tr_e) = []) /\
  (forall emb tr_e e tr_s, generate_embedding env self query tr1 = (Ret emb, tr_e) ->
     let tr2 := tr_e ++ [EvTime (clock env tr_e)] in
     let tr3 := tr2 ++ [EvTime (clock env tr2)] in
     search_similar_chunks env self emb k thr metadata_filter tr3 = (Raise e, tr_s) ->
     process_query env self query max_chunks similarity_threshold metadata_filter tr0
     = (Raise e, tr_s) /\
     model_calls (new_events tr0 tr_s)
     = [(Config.embed_model_id (settings self), embedding_request query)]) /\
  (forall emb tr_e m ms tr_s e tr_a, generate_embedding env self query tr1 = (Ret emb, tr_e) ->
     let tr2 := tr_e ++ [EvTime (clock env tr_e)] in
     let tr3 := tr2 ++ [EvTime (clock env tr2)] in
     search_similar_chunks env self emb k thr metadata_filter tr3 = (Ret (m :: ms), tr_s) ->
     let context := String.concat (nl ++ nl) (context_parts_from 0 (m :: ms)) in
     let tr4 := tr_s ++ [EvTime (clock env tr_s)] in
     let tr5 := tr4 ++ [EvTime (clock env tr4)] in
     generate_answer env self query context tr5 = (Raise e, tr_a) ->
     process_query env self query max_chunks similarity_threshold metadata_filter tr0
     = (Raise e, tr_a)).
Proof.
  intros start_time tr tr1 k thr. split; [|split].
  - intros e tr_e He. split.
    + unfold process_query, run_pipeline, bind at 1 2 3. unfold time_time at 1 2.
      fold start_time. fold tr. fold tr1. rewrite He. reflexivity.
    + destruct (ServiceFacts.generate_embedding_trace _ _ _ _ _ _ He) as [ev1 [E1 [_ [Q1 _]]]].
      rewrite E1. unfold tr1, tr. rewrite <- !app_assoc, new_events_app.
      rewrite !query_calls_app, Q1. reflexivity.
  - intros emb tr_e e tr_s He tr2 tr3 Hs. split.
    + unfold process_query, run_pipeline, bind at 1 2 3. unfold time_time at 1 2.
      fold start_time. fold tr. fold tr1. rewrite He.
      unfold bind at 1 2 3. unfold time_time at 1 2. fold tr2. fold tr3. fold k. fold thr.
      rewrite Hs. reflexivity.
    + destruct (ServiceFacts.generate_embedding_trace _ _ _ _ _ _ He) as [ev1 [E1 [M1 _]]].
      destruct (ServiceFacts.search_similar_chunks_trace _ _ _ _ _ _ _ _ _ Hs)
        as [ev2 [E2 [M2 _]]].
      rewrite E2. unfold tr3, tr2. rewrite E1. unfold tr1, tr.
      rewrite <- !app_assoc, new_events_app, !model_calls_app, M1, M2. reflexivity.
  - intros emb tr_e m ms tr_s e tr_a He tr2 tr3 Hs context tr4 tr5 Ha.
    unfold process_query, run_pipeline, bind at 1 2 3. unfold time_time at 1 2.
    fold start_time. fold tr. fold tr1. rewrite He.
    unfold bind at 1 2 3. unfold time_time at 1 2. fold tr2. fold tr3. fold k. fold thr.
    rewrite Hs.
    unfold bind at 1 2 3. unfold time_time at 1 2. fold tr4. fold tr5. fold context.
    rewrite Ha. reflexivity.
Qed.

Lemma process_query_propagates_witness :
  exists tr',
    process_query Doubles.bedrock_down Doubles.service "What colour is the sky?" None None None []
    = (Raise Doubles.throttled, tr') /\
    query_calls tr' = [].
Proof.
  destruct (process_query_propagates Doubles.bedrock_down Doubles.service
              "What colour is the sky?" None None None []) as [H _].
  edestruct (H Doubles.throttled) as [E Q].
  - vm_compute. reflexivity.
  - eexists. split; [exact E | exact Q].
Defined.

End ServiceMore.

(** * Further properties of the boundary *)

Module AppMore.



(** X14: a request that meets the constraints is handed to
    [process_query] as it is, and the client gets that result or that
    exception.  A [similarity_threshold] of [0.0] meets the constraints
    but is then replaced by the settings threshold: the request is served
    exactly like the same request without a threshold. *)
Theorem valid_request_served env service request tr :
  App.valid request = true ->
  (forall result tr',
     RAGService.process_query env service (App.query request) (App.max_chunks request)
       (App.similarity_threshold request) (App.metadata_filter request) tr = (Ret result, tr') ->
     App.query_documents env service request tr = (Ret (App.Ok200 result), tr')) /\
  (forall e tr',
     RAGService.process_query env service (App.query request) (App.max_chunks request)
       (App.similarity_threshold request) (App.metadata_filter request) tr = (Raise e, tr') ->
     App.query_documents env service request tr = (Raise e, tr')) /\
  (App.similarity_threshold request = Some 0%float ->
   App.query_documents env service request tr
   = App.query_documents env service
       {| App.query := App.query request; App.max_chunks := App.max_chunks request;
          App.similarity_threshold := None;
          App.metadata_filter := App.metadata_filter request |} tr).
Proof.
  intros Hv. unfold App.query_documents. rewrite Hv. split; [|split].
  - intros result tr' H. unfold bind. rewrite H. reflexivity.
  - intros e tr' H. unfold bind. rewrite H. reflexivity.
  - intros H0.
    assert (Hv' : App.valid {| App.query := App.query request;
                               App.max_chunks := App.max_chunks request;
                               App.similarity_threshold := None;
                               App.metadata_filter := App.metadata_filter request |} = true).
    { unfold App.valid in *. cbn [App.query App.max_chunks App.similarity_threshold].
      rewrite H0 in Hv. cbn in Hv. rewrite andb_true_r in *. exact Hv. }
    rewrite Hv'. cbn [App.query App.max_chunks App.similarity_threshold App.metadata_filter].
    rewrite H0. reflexivity.
Qed.

Lemma valid_request_served_witness :
  exists result tr',
    App.query_documents Doubles.happy Doubles.service
      {| App.query := "What colour is the sky?"; App.max_chunks := Some 5;
         App.similarity_threshold := Some 0%float; App.metadata_filter := None |} []
    = (Ret (App.Ok200 result), tr') /\
    res_chunks_found result = 2.
Proof.
  destruct (valid_request_served Doubles.happy Doubles.service
              {| App.query := "What colour is the sky?"; App.max_chunks := Some 5;
                 App.similarity_threshold := Some 0%float; App.metadata_filter := None |} [])
    as [H _]; [reflexivity|].
  eexists. eexists. split.
  - apply H. vm_compute. reflexivity.
  - reflexivity.
Defined.

(** X15: [GET /health] never fails: it answers with status "healthy" when
    the probe embedding returns and "degraded" when it raises, and lists
    both services, the index always as healthy. *)
Theorem health_endpoint env service tr :
  exists response tr',
    App.health_check env service tr = (Ret response, tr') /\
    (forall e tr1, RAGService.generate_embedding env service "test" tr = (Ret e, tr1) ->
       App.h_status response = "healthy"%string /\
       App.h_services response
       = [("bedrock"%string, "healthy"%string); ("s3_vectors"%string, "healthy"%string)]) /\
    (forall e tr1, RAGService.generate_embedding env service "test" tr = (Raise e, tr1) ->
       App.h_status response = "degraded"%string /\
       App.h_services response
       = [("bedrock"%string, "unhealthy"%string); ("s3_vectors"%string, "healthy"%string)]).
Proof.
  unfold App.health_check, bind at 1, RAGService.health_check, bind at 1, try_except, bind at 1.
  destruct (RAGService.generate_embedding env service "test" tr) as [[e|e] tr1] eqn:E;
    unfold bind, ret, datetime_now_isoformat; eexists; eexists; (split; [reflexivity|]);
    split; intros e' tr1' H; inversion H; split; reflexivity.
Qed.

End AppMore.

(** * Ingestion *)

Module IngestFacts.

Import Ingest.

(** The ingester's embedding call: one model call, then the lookup. *)
Lemma generate_embedding_cases env self text tr :
  let tr1 := tr ++ [EvInvokeModel (Config.embed_model_id (settings self))
                      (RAGService.embedding_request text)] in
  match invoke_model_response env tr (Config.embed_model_id (settings self))
          (RAGService.embedding_request text) with
  | Ret body =>
      match Py.dict_get "embedding" body with
      | Some j => generate_embedding env self text tr = (Ret j, tr1)
      | None => generate_embedding env self text tr = (Raise (KeyError "embedding"), tr1)
      end
  | Raise e => generate_embedding env self text tr = (Raise e, tr1)
  end.
Proof.
  unfold generate_embedding, bind, invoke_model, ret, raise.
  destruct (invoke_model_response env tr _ _) as [body|e]; [|reflexivity].
  destruct (Py.dict_get "embedding" body); reflexivity.
Qed.

(** The chunk loop never raises, tries every chunk once and puts nothing. *)
Lemma process_chunks_total env files self fp total : forall chunks i processed tr,
  exists added ev,
    process_chunks env files self fp total i chunks processed tr
    = (Ret (processed ++ added), tr ++ ev) /\
    (List.length added <= List.length chunks)%nat /\
    model_calls ev
    = map (fun c => (Config.embed_model_id (settings self), RAGService.embedding_request c))
        chunks /\
    put_batches ev = [].
Proof.
  induction chunks as [|c chunks IH]; intros i processed tr.
  - exists [], []. cbn. unfold ret. rewrite !app_nil_r. auto.
  - cbn [process_chunks]. unfold bind at 1. unfold try_except, bind at 1.
    pose proof (generate_embedding_cases env self c tr) as G. cbv zeta in G.
    destruct (invoke_model_response env tr _ _) as [body|e];
      [destruct (Py.dict_get "embedding" body) as [j|]|]; rewrite G.
    + unfold bind, datetime_now_isoformat, ret.
      match goal with |- context [process_chunks _ _ _ _ _ _ _ ?p ?t] =>
        destruct (IH (S i) p t) as [added [ev [E [L [Mc P]]]]] end.
      rewrite E. eexists (_ :: added). eexists.
      rewrite <- !app_assoc. split; [reflexivity|].
      split; [cbn; lia|]. split; [cbn; now rewrite Mc | exact P].
    + unfold ret.
      match goal with |- context [process_chunks _ _ _ _ _ _ _ ?p ?t] =>
        destruct (IH (S i) p t) as [added [ev [E [L [Mc P]]]]] end.
      rewrite E. exists added. eexists. rewrite <- !app_assoc. split; [reflexivity|].
      split; [cbn; lia|]. split; [cbn; now rewrite Mc | exact P].
    + unfold ret.
      match goal with |- context [process_chunks _ _ _ _ _ _ _ ?p ?t] =>
        destruct (IH (S i) p t) as [added [ev [E [L [Mc P]]]]] end.
      rewrite E. exists added. eexists. rewrite <- !app_assoc. split; [reflexivity|].
      split; [cbn; lia|]. split; [cbn; now rewrite Mc | exact P].
Qed.

(** With a model that answers by text alone, the loop keeps exactly the
    chunks the model embeds. *)
Lemma process_chunks_kept env files self fp total answer :
  (forall tr text,
     invoke_model_response env tr (Config.embed_model_id (settings self))
       (RAGService.embedding_request text) = answer text) ->
  forall chunks i processed tr,
  exists added tr',
    process_chunks env files self fp total i chunks processed tr
    = (Ret (processed ++ added), tr') /\
    map chunk_summary added
    = map (fun k => Some (Z.of_nat (fst (fst k)), snd (fst k), snd k))
        (kept_chunks answer i chunks) /\
    map pc_id added
    = map (fun k => create_document_id files (fp_str fp) (fst (fst k)))
        (kept_chunks answer i chunks).
Proof.
  intros Ha. induction chunks as [|c chunks IH]; intros i processed tr.
  - exists [], tr. cbn. unfold ret. rewrite app_nil_r. auto.
  - cbn [process_chunks kept_chunks]. unfold bind at 1. unfold try_except, bind at 1.
    pose proof (generate_embedding_cases env self c tr) as G. cbv zeta in G.
    rewrite Ha in G. unfold embedded.
    destruct (answer c) as [body|e];
      [destruct (Py.dict_get "embedding" body) as [j|]|]; rewrite G.
    + unfold bind, datetime_now_isoformat, ret.
      match goal with |- context [process_chunks _ _ _ _ _ _ _ ?p ?t] =>
        destruct (IH (S i) p t) as [added [tr' [E [S I]]]] end.
      rewrite E. eexists (_ :: added). exists tr'.
      rewrite <- !app_assoc. split; [reflexivity|].
      split; cbn [map]; [rewrite S | rewrite I]; reflexivity.
    + unfold ret. apply IH.
    + unfold ret. apply IH.
Qed.

(** X16: [process_document] skips the chunks it cannot embed.  When the
    file loads and splits, and the model's answer depends on the text
    alone, the call returns without raising; the chunks returned are
    exactly those whose embedding call and ["embedding"] lookup succeed, in
    document order, each with its own text, the embedding as sent, its
    position among all the chunks as [chunk_index], and the id
    [md5(path:position)]; every chunk is sent to the model once. *)
Theorem process_document_keeps_embedded env files self fp answer d ds chunks tr :
  loader_load files fp = Ret (d :: ds) ->
  split_documents files (d :: ds) = Ret chunks ->
  (forall tr' text,
     invoke_model_response env tr' (Config.embed_model_id (settings self))
       (RAGService.embedding_request text) = answer text) ->
  exists processed tr',
    process_document env files self fp tr = (Ret processed, tr') /\
    map chunk_summary processed
    = map (fun k => Some (Z.of_nat (fst (fst k)), snd (fst k), snd k))
        (kept_chunks answer 0 chunks) /\
    map pc_id processed
    = map (fun k => create_document_id files (fp_str fp) (fst (fst k)))
        (kept_chunks answer 0 chunks) /\
    (List.length processed <= List.length chunks)%nat /\
    model_calls (new_events tr tr')
    = map (fun c => (Config.embed_model_id (settings self), RAGService.embedding_request c))
        chunks.
Proof.
  intros Hl Hs Ha. unfold process_document, bind at 1, RAGService.lift. rewrite Hl.
  unfold bind at 1. rewrite Hs.
  destruct (process_chunks_kept env files self fp (List.length chunks) answer Ha chunks 0 [] tr)
    as [added [tr' [E [S I]]]].
  destruct (process_chunks_total env files self fp (List.length chunks) chunks 0 [] tr)
    as [added' [ev [E' [L [Mc _]]]]].
  rewrite E in E'. inversion E' as [[Eadd Etr]]. subst added'.
  exists added, tr'. cbn [app] in E. split; [exact E|].
  split; [exact S|]. split; [exact I|]. split; [exact L|].
  rewrite Etr, new_events_app. exact Mc.
Qed.

Lemma process_document_keeps_embedded_witness :
  exists processed tr',
    process_document Doubles.picky_model Doubles.disk Doubles.ingester Doubles.sky []
    = (Ret processed, tr') /\
    map chunk_summary processed
    = [Some (0, "The sky is blue."%string,
             Py.JList [Py.JFloat 0.5%float; Py.JFloat 0.25%float]);
       Some (2, "Grass is green."%string,
             Py.JList [Py.JFloat 0.5%float; Py.JFloat 0.25%float])] /\
    map pc_id processed = ["data/sky.txt:0"; "data/sky.txt:2"]%string.
Proof.
  destruct (process_document_keeps_embedded Doubles.picky_model Doubles.disk Doubles.ingester
              Doubles.sky Doubles.answer_by_text
              "The sky is blue. bad Grass is green."%string []
              ["The sky is blue."; "bad"; "Grass is green."]%string [])
    as [processed [tr' [E [S [I _]]]]].
  - reflexivity.
  - reflexivity.
  - intros tr' text. reflexivity.
  - exists processed, tr'. split; [exact E|]. split; [rewrite S | rewrite I]; reflexivity.
Defined.

(** One file of the file loop: what it adds, and that it puts nothing. *)
Lemma process_document_total env files self fp tr :
  exists out ev,
    process_document env files self fp tr = (out, tr ++ ev) /\ put_batches ev = [].
Proof.
  unfold process_document, bind at 1, RAGService.lift.
  destruct (loader_load files fp) as [[|d ds]|e].
  - exists (Ret []), []. unfold ret. rewrite app_nil_r. auto.
  - unfold bind at 1. destruct (split_documents files (d :: ds)) as [chunks|e].
    + destruct (process_chunks_total env files self fp (List.length chunks) chunks 0 [] tr)
        as [added [ev [E [_ [_ P]]]]].
      rewrite E. eexists. eexists. split; [reflexivity | exact P].
    + exists (Raise e), []. rewrite app_nil_r. auto.
  - exists (Raise e), []. rewrite app_nil_r. auto.
Qed.

(** The file loop never raises and puts nothing; it only adds chunks, and
    counts at most one per file. *)
Lemma ingest_files_total env files self : forall text_files all_chunks successful tr,
  exists more n ev,
    ingest_files env files self text_files all_chunks successful tr
    = (Ret (all_chunks ++ more, n), tr ++ ev) /\
    successful <= n <= successful + Py.len text_files /\
    put_batches ev = [].
Proof.
  induction text_files as [|fp fs IH]; intros all_chunks successful tr.
  - exists [], successful, []. cbn. unfold ret, Py.len. rewrite !app_nil_r. cbn.
    split; [reflexivity|]. split; [lia | reflexivity].
  - cbn [ingest_files]. unfold bind at 1. unfold try_except, bind at 1.
    destruct (process_document_total env files self fp tr) as [out [ev [E P]]]. rewrite E.
    destruct out as [chunks|e]; unfold ret; cbn [fst snd].
    + destruct (IH (all_chunks ++ chunks) (successful + 1) (tr ++ ev))
        as [more [n [ev' [E' [B P']]]]].
      rewrite E'. exists (chunks ++ more), n, (ev ++ ev').
      rewrite <- !app_assoc. split; [reflexivity|]. split.
      * unfold Py.len in *. cbn [List.length]. lia.
      * rewrite put_batches_app, P, P'. reflexivity.
    + destruct (IH all_chunks successful (tr ++ ev)) as [more [n [ev' [E' [B P']]]]].
      rewrite E'. exists more, n, (ev ++ ev').
      rewrite <- !app_assoc. split; [reflexivity|]. split.
      * unfold Py.len in *. cbn [List.length]. lia.
      * rewrite put_batches_app, P, P'. reflexivity.
Qed.

(** X17: a file that cannot be read does not stop the ingestion.  If
    loading or splitting a file raises, the file loop goes on exactly as if
    the file were not in the list: the same chunks are collected, the same
    files counted, the same calls made.  A file that loads as no document
    is no failure: it adds no chunk, makes no call and counts as processed. *)
Theorem unreadable_file_skipped env files self before bad after all_chunks successful tr :
  ((exists e, loader_load files bad = Raise e) \/
   (exists d ds e, loader_load files bad = Ret (d :: ds) /\
                   split_documents files (d :: ds) = Raise e) ->
   ingest_files env files self (before ++ bad :: after) all_chunks successful tr
   = ingest_files env files self (before ++ after) all_chunks successful tr) /\
  (loader_load files bad = Ret [] ->
   ingest_files env files self (bad :: after) all_chunks successful tr
   = ingest_files env files self after all_chunks (successful + 1) tr).
Proof.
  split.
  - intros H.
    assert (Hbad : forall tr0, exists e, process_document env files self bad tr0 = (Raise e, tr0)).
    { intros tr0. unfold process_document, bind at 1, RAGService.lift.
      destruct H as [[e H]|[d [ds [e [H1 H2]]]]].
      - rewrite H. now exists e.
      - rewrite H1. unfold bind. rewrite H2. now exists e. }
    revert all_chunks successful tr.
    induction before as [|fp before IH]; intros all_chunks successful tr.
    + cbn [app ingest_files]. unfold bind at 1. unfold try_except, bind at 1.
      destruct (Hbad tr) as [e ->]. reflexivity.
    + cbn [app ingest_files]. unfold bind at 1 3. unfold try_except, bind at 1 2.
      destruct (process_document env files self fp tr) as [[chunks|e] tr1];
        unfold ret; cbn [fst snd]; apply IH.
  - intros H. cbn [ingest_files]. unfold bind at 1. unfold try_except, bind at 1.
    unfold process_document, bind at 1, RAGService.lift. rewrite H.
    unfold ret. cbn [fst snd]. now rewrite app_nil_r.
Qed.

Lemma unreadable_file_skipped_witness :
  ingest_files Doubles.picky_model Doubles.disk Doubles.ingester
    ([Doubles.sky] ++ Doubles.torn :: []) [] 0 []
  = ingest_files Doubles.picky_model Doubles.disk Doubles.ingester ([Doubles.sky] ++ []) [] 0 [].
Proof.
  destruct (unreadable_file_skipped Doubles.picky_model Doubles.disk Doubles.ingester
              [Doubles.sky] Doubles.torn [] [] 0 []) as [H _].
  apply H. left. exists (OtherError "UnicodeDecodeError"). reflexivity.
Defined.

(** X18: a directory that does not exist makes [ingest_directory] raise
    [ValueError] before anything is done.  A directory without [.txt]
    files makes it return, with no call made, a result holding only
    ["files_processed"] and ["chunks_ingested"], both 0; the command-line
    report reads ["total_files"] from the result, so on such a directory
    [scripts/ingest.py] ends with status 1, as it does on a missing one. *)
Theorem ingest_directory_nothing_to_do env files self directory_path tr :
  (dir_exists files directory_path = false ->
   ingest_directory env files self directory_path tr
   = (Raise (ValueError ("Directory does not exist: " ++ dir_str files directory_path)), tr) /\
   main env files self directory_path tr = (Ret 1, tr)) /\
  (dir_exists files directory_path = true -> rglob_txt files directory_path = [] ->
   ingest_directory env files self directory_path tr
   = (Ret [("files_processed"%string, Py.JInt 0); ("chunks_ingested"%string, Py.JInt 0)], tr) /\
   main env files self directory_path tr = (Ret 1, tr)).
Proof.
  split.
  - intros H. unfold main, try_except, bind, ingest_directory. rewrite H. split; reflexivity.
  - intros H H0. unfold main, try_except, bind, ingest_directory. rewrite H, H0.
    split; reflexivity.
Qed.

Lemma ingest_directory_nothing_to_do_witness :
  main Doubles.picky_model Doubles.disk Doubles.ingester "empty" [] = (Ret 1, []).
Proof.
  destruct (ingest_directory_nothing_to_do Doubles.picky_model Doubles.disk Doubles.ingester
              "empty" []) as [_ H].
  apply H; reflexivity.
Defined.

(** The result dict of the main path of [ingest_directory]. *)
Lemma report_values_full n total c st :
  exists v,
    report_values [("files_processed"%string, Py.JInt n);
                   ("total_files"%string, Py.JInt total);
                   ("chunks_ingested"%string, Py.JInt c);
                   ("index_stats"%string, stats_dict st)] = Ret v.
Proof. eexists. reflexivity. Qed.

(** X19: [ingest_directory] on a directory with [.txt] files.  The file
    loop never raises and makes no put call; [files_processed] lies between
    0 and [total_files], the number of files found.  If no chunk was
    collected, the index is not called and [chunks_ingested] is 0.
    Otherwise the collected chunks go to one upsert: its count becomes
    [chunks_ingested], and an exception it raises comes out of
    [ingest_directory], with no result for the work done so far.  The
    command-line script ends with status 0 in the first two cases and 1 in
    the last. *)
Theorem ingest_directory_outcomes env files self directory_path tr f fs :
  dir_exists files directory_path = true ->
  rglob_txt files directory_path = f :: fs ->
  exists all_chunks n tr1,
    ingest_files env files self (f :: fs) [] 0 tr = (Ret (all_chunks, n), tr1) /\
    0 <= n <= Py.len (f :: fs) /\
    put_batches (new_events tr tr1) = [] /\
    let result c :=
      [("files_processed"%string, Py.JInt n);
       ("total_files"%string, Py.JInt (Py.len (f :: fs)));
       ("chunks_ingested"%string, Py.JInt c);
       ("index_stats"%string,
        stats_dict (S3VectorClient.get_index_stats (vector_client self)))] in
    (all_chunks = [] ->
     ingest_directory env files self directory_path tr = (Ret (result 0), tr1) /\
     main env files self directory_path tr = (Ret 0, tr1)) /\
    (forall c tr2, all_chunks <> [] ->
       upsert_chunks env self all_chunks tr1 = (Ret c, tr2) ->
       ingest_directory env files self directory_path tr = (Ret (result c), tr2) /\
       main env files self directory_path tr = (Ret 0, tr2)) /\
    (forall e tr2, all_chunks <> [] ->
       upsert_chunks env self all_chunks tr1 = (Raise e, tr2) ->
       ingest_directory env files self directory_path tr = (Raise e, tr2) /\
       main env files self directory_path tr = (Ret 1, tr2)).
Proof.
  intros Hd Hf.
  destruct (ingest_files_total env files self (f :: fs) [] 0 tr) as [more [n [ev [E [B P]]]]].
  cbn [app] in E. exists more, n, (tr ++ ev). split; [exact E|]. split; [lia|].
  split; [now rewrite new_events_app|].
  intros result.
  assert (U : ingest_directory env files self directory_path tr
              = match more with
                | [] => (Ret (result 0), tr ++ ev)
                | _ :: _ =>
                    match upsert_chunks env self more (tr ++ ev) with
                    | (Ret c, tr2) => (Ret (result c), tr2)
                    | (Raise e, tr2) => (Raise e, tr2)
                    end
                end).
  { unfold ingest_directory. rewrite Hd, Hf. cbn [negb]. unfold bind at 1. rewrite E.
    cbn [fst snd]. destruct more as [|c0 more'].
    - reflexivity.
    - unfold bind at 1.
      destruct (upsert_chunks env self (c0 :: more') (tr ++ ev)) as [[c|e] tr2]; reflexivity. }
  assert (Mn : main env files self directory_path tr
               = match ingest_directory env files self directory_path tr with
                 | (Ret r, tr2) =>
                     match report_values r with
                     | Ret _ => (Ret 0, tr2)
                     | Raise _ => (Ret 1, tr2)
                     end
                 | (Raise _, tr2) => (Ret 1, tr2)
                 end).
  { unfold main, try_except, bind at 1.
    destruct (ingest_directory env files self directory_path tr) as [[r|e] tr2];
      [|reflexivity].
    unfold bind, RAGService.lift, ret. destruct (report_values r); reflexivity. }
  split; [|split].
  - intros ->. rewrite Mn, U. split; reflexivity.
  - intros c tr2 Hne Hu. rewrite Mn, U. destruct more as [|c0 more']; [contradiction|].
    rewrite Hu. split; reflexivity.
  - intros e tr2 Hne Hu. rewrite Mn, U. destruct more as [|c0 more']; [contradiction|].
    rewrite Hu. split; reflexivity.
Qed.

Lemma ingest_directory_outcomes_witness :
  exists tr',
    ingest_directory Doubles.picky_model Doubles.disk Doubles.ingester "data" []
    = (Ret [("files_processed"%string, Py.JInt 1);
            ("total_files"%string, Py.JInt 2);
            ("chunks_ingested"%string, Py.JInt 2);
            ("index_stats"%string,
             stats_dict (S3VectorClient.get_index_stats (vector_client Doubles.ingester)))],
       tr') /\
    main Doubles.picky_model Doubles.disk Doubles.ingester "data" [] = (Ret 0, tr').
Proof.
  destruct (ingest_directory_outcomes Doubles.picky_model Doubles.disk Doubles.ingester
              "data" [] Doubles.sky [Doubles.torn] eq_refl eq_refl)
    as [all_chunks [n [tr1 [E [_ [_ [_ [H _]]]]]]]].
  vm_compute in E. inversion E; subst.
  edestruct (H 2) as [A B]; [discriminate | vm_compute; reflexivity |].
  eexists. split; [exact A | exact B].
Defined.

End IngestFacts.
